(** * IrisVT module: hook registration, hook dispatch and VT enrichment

    A shallow embedding of [iris_vt_mod/IrisVTInterface.py].  The module
    is a thin layer of control flow around two collaborators that live
    outside the repository: the host (hook registration, the logger with
    its message queue, the status objects) and the VirusTotal client.
    Both are taken as parameters; the Python of the module itself is
    transcribed statement by statement into a small state-and-exception
    monad. *)

From stdpp Require Import base option list strings pretty gmap.

Open Scope string_scope.

(** ** Python values *)

(** The values met in the configuration dictionary and in the [results]
    dictionary of a report: [None], booleans, integers and strings. *)
Inductive pyval : Type :=
  | PyNone
  | PyBool (b : bool)
  | PyInt (z : Z)
  | PyStr (s : string).

Global Instance pyval_eq_dec : EqDecision pyval.
Proof. solve_decision. Defined.

(** [str(v)], which is also what an f-string field [{v}] renders. *)
Definition py_str (v : pyval) : string :=
  match v with
  | PyNone => "None"
  | PyBool true => "True"
  | PyBool false => "False"
  | PyInt z => pretty z
  | PyStr s => s
  end.

(** Truthiness, as tested by [if v:]. *)
Definition py_truthy (v : pyval) : bool :=
  match v with
  | PyNone => false
  | PyBool b => b
  | PyInt z => negb (z =? 0)%Z
  | PyStr s => negb (String.eqb s EmptyString)
  end.

(** [v is True]: identity with the singleton [True]. *)
Definition py_is_True (v : pyval) : bool :=
  match v with
  | PyBool true => true
  | _ => false
  end.

(** [v is None]. *)
Definition py_is_None (v : pyval) : bool :=
  match v with
  | PyNone => true
  | _ => false
  end.

(** Numeric reading of a value: [bool] is a subclass of [int]. *)
Definition py_as_int (v : pyval) : option Z :=
  match v with
  | PyInt z => Some z
  | PyBool true => Some 1%Z
  | PyBool false => Some 0%Z
  | _ => None
  end.

(** [a == b]. *)
Definition py_eqb (a b : pyval) : bool :=
  match py_as_int a, py_as_int b with
  | Some x, Some y => (x =? y)%Z
  | None, None =>
      match a, b with
      | PyNone, PyNone => true
      | PyStr s, PyStr t => String.eqb s t
      | _, _ => false
      end
  | _, _ => false
  end.

(** [d.get(k)] on a dictionary: [None] when the key is absent. *)
Definition dict_get (d : gmap string pyval) (k : string) : pyval :=
  default PyNone (d !! k).

(** ** Substring test *)

(** [needle in hay] on Python strings. *)
Fixpoint py_in (needle hay : string) : bool :=
  String.prefix needle hay ||
  match hay with
  | EmptyString => false
  | String _ rest => py_in needle rest
  end.

(** ** Data model *)

(** The indicator handed to the hooks.  It is owned by the host; the
    module reads [ioc_type.type_name] and [ioc_value] and writes
    [ioc_value], [ioc_description] and [ioc_tags]. *)
Record IocType : Type := { type_name : string }.

Record Ioc : Type := {
  ioc_type : IocType;
  ioc_value : string;
  ioc_description : string;
  ioc_tags : string
}.

Definition set_ioc_value (v : string) (d : Ioc) : Ioc :=
  {| ioc_type := ioc_type d; ioc_value := v;
     ioc_description := ioc_description d; ioc_tags := ioc_tags d |}.

Definition set_ioc_description (v : string) (d : Ioc) : Ioc :=
  {| ioc_type := ioc_type d; ioc_value := ioc_value d;
     ioc_description := v; ioc_tags := ioc_tags d |}.

Definition set_ioc_tags (v : string) (d : Ioc) : Ioc :=
  {| ioc_type := ioc_type d; ioc_value := ioc_value d;
     ioc_description := ioc_description d; ioc_tags := v |}.

(** One line handed to the module logger. *)
Inductive LogLevel : Type := INFO | ERROR | CRITICAL.

Definition LogRecord : Type := LogLevel * string.

Module InterfaceStatus.

Inductive StatusKind : Type := Success | Error.

(** Modelled from the spec: the status objects of the host interface
    library ([iris_interface.IrisInterfaceStatus]), which the module
    imports and the repository does not contain.  The spec gives a
    status as either Success or Error, carrying [data] and [logs]; the
    registrar also reads a message back from it. *)
Record IIStatus (D : Type) : Type := {
  kind : StatusKind;
  message : pyval;
  data : option D;
  logs : list LogRecord
}.

Arguments kind {D} _.
Arguments message {D} _.
Arguments data {D} _.
Arguments logs {D} _.

Definition is_failure {D} (st : IIStatus D) : bool :=
  match kind st with
  | Error => true
  | Success => false
  end.

Definition get_message {D} (st : IIStatus D) : pyval := message st.

(** The two module-level status templates. *)
Definition I2Success {D} : IIStatus D :=
  {| kind := Success; message := PyNone; data := None; logs := [] |}.

Definition I2Error {D} : IIStatus D :=
  {| kind := Error; message := PyNone; data := None; logs := [] |}.

(** [tmpl(data=d)] and [tmpl(data=d, logs=l)]: a status of the
    template's kind carrying the given payload. *)
Definition with_data {D} (tmpl : IIStatus D) (d : D) : IIStatus D :=
  {| kind := kind tmpl; message := message tmpl;
     data := Some d; logs := logs tmpl |}.

Definition with_data_logs {D} (tmpl : IIStatus D) (d : D)
    (l : list LogRecord) : IIStatus D :=
  {| kind := kind tmpl; message := message tmpl;
     data := Some d; logs := l |}.

End InterfaceStatus.

Import InterfaceStatus.

(** ** The collaborators *)

(** A call of [register_to_hook], with the keyword arguments as passed
    ([None] for a keyword the call site leaves out). *)
Record RegCall : Type := {
  reg_module_id : Z;
  iris_hook_name : string;
  manual_hook_name : option string;
  is_manual_hook : option bool
}.

Global Instance RegCall_eq_dec : EqDecision RegCall.
Proof. solve_decision. Defined.

(** The client handle built by [get_vt_instance]. *)
Inductive VtInstance : Type :=
  | PrivateApi (api_key : pyval)
  | PublicApi (api_key : pyval).

Inductive VtRequest : Type :=
  | get_ip_report (value : string)
  | get_domain_report (value : string).

Definition VtCall : Type := VtInstance * VtRequest.

(** A report, seen through [report.get('results')]: the [results]
    dictionary, or [None] when the report has no such key. *)
Record Report : Type := { results : option (gmap string pyval) }.

(** What the module does to the outside: lines logged (which the host's
    handler also copies to the message queue), requests sent to the VT
    client and hooks registered, each oldest first. *)
Record World : Type := {
  w_log : list LogRecord;
  w_vt : list VtCall;
  w_reg : list RegCall
}.

(** A hook runs on the outside world and on the one data object the
    host passed by reference. *)
Record HookState : Type := {
  h_data : Ioc;
  h_world : World
}.

(** ** A state and exception monad *)

Inductive PyExc : Type :=
  | AttributeError (what : string).

Inductive Res (A : Type) : Type :=
  | Ok (a : A)
  | Raised (e : PyExc).

Arguments Ok {A} _.
Arguments Raised {A} _.

Definition M (S A : Type) : Type := S -> Res A * S.

Definition ret {S A} (a : A) : M S A := fun s => (Ok a, s).

Definition bind {S A B} (m : M S A) (k : A -> M S B) : M S B :=
  fun s =>
    match m s with
    | (Ok a, s') => k a s'
    | (Raised e, s') => (Raised e, s')
    end.

Definition raise {S A} (e : PyExc) : M S A := fun s => (Raised e, s).

Definition gets {S A} (f : S -> A) : M S A := fun s => (Ok (f s), s).

Definition modify {S} (f : S -> S) : M S unit := fun s => (Ok tt, f s).

Notation "x <- m ;; k" := (bind m (fun x => k))
  (at level 100, m at next level, right associativity).
Notation "m ;; k" := (bind m (fun _ => k))
  (at level 100, right associativity).

(** Run a computation on the world inside a hook. *)
Definition in_world {A} (m : M World A) : M HookState A :=
  fun s =>
    let (r, w) := m (h_world s) in
    (r, {| h_data := h_data s; h_world := w |}).

Definition log_record (lvl : LogLevel) (msg : string) : M World unit :=
  modify (fun w => {| w_log := w_log w ++ [(lvl, msg)];
                      w_vt := w_vt w; w_reg := w_reg w |}).

Definition vt_record (c : VtCall) : M World unit :=
  modify (fun w => {| w_log := w_log w; w_vt := w_vt w ++ [c];
                      w_reg := w_reg w |}).

Definition reg_record (c : RegCall) : M World unit :=
  modify (fun w => {| w_log := w_log w; w_vt := w_vt w;
                      w_reg := w_reg w ++ [c] |}).

(** [log.info], [log.error] and [log.critical] inside a hook. *)
Definition log_info (msg : string) : M HookState unit :=
  in_world (log_record INFO msg).
Definition log_error (msg : string) : M HookState unit :=
  in_world (log_record ERROR msg).
Definition log_critical (msg : string) : M HookState unit :=
  in_world (log_record CRITICAL msg).

(** Attribute writes on the data object. *)
Definition update_data (f : Ioc -> Ioc) : M HookState unit :=
  modify (fun s => {| h_data := f (h_data s); h_world := h_world s |}).

(** [r.get(k)] where [r] may be [None]. *)
Definition results_get (r : option (gmap string pyval)) (k : string)
    : M HookState pyval :=
  match r with
  | Some d => ret (dict_get d k)
  | None => raise (AttributeError "'NoneType' object has no attribute 'get'")
  end.

(** The text put between the description and the whois record,
    ["\n\nWHOIS\n "] in the source. *)
Definition LF : string := String (Ascii.ascii_of_nat 10) EmptyString.

Definition whois_heading : string := LF +:+ LF +:+ "WHOIS" +:+ LF +:+ " ".

(** ** The interface class *)

Section IrisVTInterface.

(** The loaded configuration, [self._dict_conf]. *)
Variable _dict_conf : gmap string pyval.

(** The VT client: the report it answers to a request made through a
    given handle. *)
Variable vt_service : VtInstance -> VtRequest -> Report.

(** The host's answer to a hook registration. *)
Variable host_register : RegCall -> IIStatus pyval.

Definition register_to_hook (c : RegCall) : M World (IIStatus pyval) :=
  reg_record c;;
  ret (host_register c).

(** [status.get_data()] of a registration status. *)
Definition get_data (st : IIStatus pyval) : pyval :=
  default PyNone (data st).

(** [register_hooks], lines 44-83.  [status] is bound by the first
    call only; the results of the three later calls are dropped. *)
Definition register_hooks (module_id : Z) : M World unit :=
  status <- register_to_hook
    {| reg_module_id := module_id;
       iris_hook_name := "on_postload_ioc_create";
       manual_hook_name := None; is_manual_hook := None |};;
  (if is_failure status then
     log_record ERROR (py_str (get_message status));;
     log_record ERROR (py_str (get_data status))
   else
     log_record INFO "Successfully registered on_postload_ioc_create hook");;
  register_to_hook
    {| reg_module_id := module_id;
       iris_hook_name := "on_postload_ioc_update";
       manual_hook_name := None; is_manual_hook := None |};;
  (if is_failure status then
     log_record ERROR (py_str (get_message status));;
     log_record ERROR (py_str (get_data status))
   else
     log_record INFO "Successfully registered on_postload_ioc_update hook");;
  register_to_hook
    {| reg_module_id := module_id;
       iris_hook_name := "on_preload_ioc_update";
       manual_hook_name := None; is_manual_hook := None |};;
  (if is_failure status then
     log_record ERROR (py_str (get_message status));;
     log_record ERROR (py_str (get_data status))
   else
     log_record INFO "Successfully registered on_preload_ioc_update hook");;
  register_to_hook
    {| reg_module_id := module_id;
       iris_hook_name := "on_manual_trigger_ioc";
       manual_hook_name := Some "Process with VT module";
       is_manual_hook := Some true |};;
  (if is_failure status then
     log_record ERROR (py_str (get_message status));;
     log_record ERROR (py_str (get_data status))
   else
     log_record INFO "Successfully registered on_manual_trigger_ioc hook").

(** [get_vt_instance], lines 120-132. *)
Definition get_vt_instance : VtInstance :=
  let is_premium := dict_get _dict_conf "vt_key_is_premium" in
  let api_key := dict_get _dict_conf "vt_api_key" in
  if py_truthy is_premium then PrivateApi api_key else PublicApi api_key.

(** A request to the client: noted in the world, answered by the
    service. *)
Definition vt_request (vt : VtInstance) (q : VtRequest)
    : M HookState Report :=
  in_world (vt_record (vt, q));;
  ret (vt_service vt q).

(** [_handle_vt_domain], lines 155-177. *)
Definition _handle_vt_domain : M HookState (IIStatus Ioc) :=
  let vt := get_vt_instance in
  ioc <- gets h_data;;
  log_info ("Getting domain report for " +:+ ioc_value ioc);;
  report <- vt_request vt (get_domain_report (ioc_value ioc));;
  log_info "VT report fetched.";;
  let results := results report in
  response_code <- results_get results "response_code";;
  if py_eqb response_code (PyInt 0) then
    verbose_msg <- results_get results "verbose_msg";;
    log_error ("Got invalid feedback from VT :: " +:+ py_str verbose_msg);;
    ret I2Success
  else
    (if py_is_True (dict_get _dict_conf "vt_domain_add_whois_as_desc") then
       whois <- results_get results "whois";;
       ioc <- gets h_data;;
       update_data (set_ioc_description
         (ioc_description ioc +:+ whois_heading +:+ py_str whois))
     else ret tt);;
    ret I2Success.

(** [_handle_vt_ip], lines 179-208.  The [asn is None] test guards
    the log line only; the assignment to [ioc_tags] follows it on
    both branches. *)
Definition _handle_vt_ip : M HookState (IIStatus Ioc) :=
  let vt := get_vt_instance in
  ioc <- gets h_data;;
  log_info ("Getting IP report for " +:+ ioc_value ioc);;
  report <- vt_request vt (get_ip_report (ioc_value ioc));;
  log_info "VT report fetched.";;
  let results := results report in
  response_code <- results_get results "response_code";;
  if py_eqb response_code (PyInt 0) then
    verbose_msg <- results_get results "verbose_msg";;
    log_error ("Got invalid feedback from VT :: " +:+ py_str verbose_msg);;
    ret I2Success
  else
    (if py_is_True (dict_get _dict_conf "vt_ip_assign_asn_as_tag") then
       log_info "Assigning new ASN tag to IOC.";;
       asn <- results_get results "asn";;
       (if py_is_None asn then log_info "ASN was nul - skipping"
        else ret tt);;
       asn' <- results_get results "asn";;
       ioc <- gets h_data;;
       update_data (set_ioc_tags (ioc_tags ioc +:+ ",ASN:" +:+ py_str asn'))
     else ret tt);;
    ret I2Success.

(** [_handle_ioc], lines 134-153. *)
Definition _handle_ioc : M HookState (IIStatus Ioc) :=
  data <- gets h_data;;
  if py_in "ip-" (type_name (ioc_type data)) then
    _handle_vt_ip
  else if py_in "domain" (type_name (ioc_type data)) then
    _handle_vt_domain
  else
    log_error ("IOC type " +:+ type_name (ioc_type data)
               +:+ " not handled by VT module. Skipping");;
    ret (with_data I2Success data).

(** [tmpl(data=data, logs=list(self.message_queue))]. *)
Definition envelope (tmpl : IIStatus Ioc) : M HookState (IIStatus Ioc) :=
  data <- gets h_data;;
  queue <- gets (fun s => w_log (h_world s));;
  ret (with_data_logs tmpl data queue).

(** Lines 113-118 of [hooks_handler]: what follows the dispatch. *)
Definition conclude (hook_name : string) (status : IIStatus Ioc)
    : M HookState (IIStatus Ioc) :=
  if is_failure status then
    log_error ("Encountered error processing hook " +:+ hook_name);;
    envelope I2Error
  else
    log_info ("Successfully processed hook " +:+ hook_name);;
    envelope I2Success.

(** [hooks_handler], lines 85-118.  Line 93 attaches the host's queue
    handler to the logger, so that [self.message_queue] holds the lines
    logged: it is read here as [w_log]. *)
Definition hooks_handler (hook_name : string)
    : M HookState (IIStatus Ioc) :=
  log_info ("Received " +:+ hook_name);;
  if String.eqb hook_name "on_postload_ioc_create" then
    status <- _handle_ioc;;
    conclude hook_name status
  else if String.eqb hook_name "on_postload_ioc_update" then
    status <- _handle_ioc;;
    conclude hook_name status
  else if String.eqb hook_name "on_preload_ioc_update" then
    (* data['ioc_value'] = "changed" *)
    update_data (set_ioc_value "changed");;
    conclude hook_name I2Success
  else if String.eqb hook_name "on_manual_trigger_ioc" then
    status <- _handle_ioc;;
    conclude hook_name status
  else
    log_critical ("Received unsupported hook " +:+ hook_name);;
    envelope I2Error.

End IrisVTInterface.

(** The report the IP routine, respectively the domain routine, is
    answered for the data object of a state. *)
Definition ip_report_of (conf : gmap string pyval)
    (svc : VtInstance -> VtRequest -> Report) (s : HookState) : Report :=
  svc (get_vt_instance conf) (get_ip_report (ioc_value (h_data s))).

Definition domain_report_of (conf : gmap string pyval)
    (svc : VtInstance -> VtRequest -> Report) (s : HookState) : Report :=
  svc (get_vt_instance conf) (get_domain_report (ioc_value (h_data s))).

(** ** What "contains" means *)

(** The spec's wording for the type test: the type name contains the
    marker somewhere. *)
Definition contains (needle hay : string) : Prop :=
  exists before after, hay = before +:+ needle +:+ after.

(** ** Names used in the statements *)

(** The keyword-free registration call of [register_hooks], and the
    manual one. *)
Definition plain_call (module_id : Z) (hook : string) : RegCall :=
  {| reg_module_id := module_id; iris_hook_name := hook;
     manual_hook_name := None; is_manual_hook := None |}.

Definition manual_call (module_id : Z) (hook label : string) : RegCall :=
  {| reg_module_id := module_id; iris_hook_name := hook;
     manual_hook_name := Some label; is_manual_hook := Some true |}.

(** The four hooks [register_hooks] asks for, in its order. *)
Definition registered_calls (module_id : Z) : list RegCall :=
  [ plain_call module_id "on_postload_ioc_create";
    plain_call module_id "on_postload_ioc_update";
    plain_call module_id "on_preload_ioc_update";
    manual_call module_id "on_manual_trigger_ioc" "Process with VT module" ].

Definition registered_hook_names : list string :=
  iris_hook_name <$> registered_calls 0.

(** The hooks [hooks_handler] hands over to [_handle_ioc]. *)
Definition delegating_hook_names : list string :=
  [ "on_postload_ioc_create"; "on_postload_ioc_update";
    "on_manual_trigger_ioc" ].

(** The log line of a successful registration. *)
Definition registered_line (hook : string) : LogRecord :=
  (INFO, "Successfully registered " +:+ hook +:+ " hook").

(** ** Sample inputs *)

Definition empty_world : World := {| w_log := []; w_vt := []; w_reg := [] |}.

Definition sample_state (tn value : string) : HookState :=
  {| h_data := {| ioc_type := {| type_name := tn |};
                  ioc_value := value;
                  ioc_description := "seen in proxy logs";
                  ioc_tags := "c2,apt" |};
     h_world := empty_world |}.

Definition sample_conf : gmap string pyval :=
  {[ "vt_api_key" := PyStr "0123abcd";
     "vt_key_is_premium" := PyBool false;
     "vt_ip_assign_asn_as_tag" := PyBool true;
     "vt_domain_add_whois_as_desc" := PyBool true ]}.

(** A client that answers every request with the same [results]. *)
Definition answering (r : gmap string pyval)
    : VtInstance -> VtRequest -> Report :=
  fun _ _ => {| results := Some r |}.

Definition results_no_data : gmap string pyval :=
  {[ "response_code" := PyInt 0;
     "verbose_msg" := PyStr "Missing IP address" ]}.

Definition results_without_asn : gmap string pyval :=
  {[ "response_code" := PyInt 1;
     "verbose_msg" := PyStr "IP address in dataset" ]}.

Definition results_with_asn : gmap string pyval :=
  <[ "asn" := PyStr "AS1234" ]> results_without_asn.

Definition results_with_whois : gmap string pyval :=
  {[ "response_code" := PyInt 1;
     "verbose_msg" := PyStr "Domain found in dataset";
     "whois" := PyStr "registrar: example" ]}.

(** A host that accepts the first registration and rejects every
    later one. *)
Definition host_rejecting_later (c : RegCall) : IIStatus pyval :=
  if String.eqb (iris_hook_name c) "on_postload_ioc_create" then I2Success
  else {| kind := Error; message := PyStr "hook not available";
          data := Some (PyStr (iris_hook_name c)); logs := [] |}.

(** ** The module descriptor *)

(** [iris_vt_mod/IrisVTConfig.py].  The two version numbers of the file
    are floating-point literals and are left out. *)
Module interface_conf.

(** One entry of [module_configuration], key by key. *)
Record ConfParam : Type := {
  param_name : string;
  param_human_name : string;
  param_description : string;
  default : pyval;
  mandatory : bool;
  type : string
}.

Definition module_name : string := "IrisVT".

Definition module_description : string :=
  "Provides an interface between VT and IRIS".

Definition pipeline_support : bool := false.

Definition pipeline_info : gmap string pyval := ∅.

Definition module_configuration : list ConfParam :=
  [ {| param_name := "vt_api_key";
       param_human_name := "VT API Key";
       param_description := "API key to use to communicate with VT";
       default := PyNone;
       mandatory := true;
       type := "sensitive_string" |};
    {| param_name := "vt_key_is_premium";
       param_human_name := "VT Key is premium";
       param_description := "Set to True if the VT key is premium";
       default := PyBool false;
       mandatory := true;
       type := "bool" |};
    {| param_name := "vt_max_rate";
       param_human_name := "VT Max Query Rate per min";
       param_description := "Set the maximum requests per minute to VT";
       default := PyNone;
       mandatory := false;
       type := "int" |} ].

End interface_conf.

(** The parameter names the descriptor declares. *)
Definition declared_param_names : list string :=
  interface_conf.param_name <$> interface_conf.module_configuration.

(** The configuration keys [IrisVTInterface] looks up. *)
Definition conf_keys_read : list string :=
  [ "vt_key_is_premium"; "vt_api_key";
    "vt_domain_add_whois_as_desc"; "vt_ip_assign_asn_as_tag" ].

(** Two configurations that answer alike on every key that is read. *)
Definition conf_agree (c1 c2 : gmap string pyval) : Prop :=
  Forall (fun k => dict_get c1 k = dict_get c2 k) conf_keys_read.

(** The request a routine sends for the data object of a state. *)
Definition ip_call_of (conf : gmap string pyval) (s : HookState) : VtCall :=
  (get_vt_instance conf, get_ip_report (ioc_value (h_data s))).

Definition domain_call_of (conf : gmap string pyval) (s : HookState)
    : VtCall :=
  (get_vt_instance conf, get_domain_report (ioc_value (h_data s))).

(** The requests [_handle_ioc] sends for a state. *)
Definition requests_of (conf : gmap string pyval) (s : HookState)
    : list VtCall :=
  if py_in "ip-" (type_name (ioc_type (h_data s))) then [ip_call_of conf s]
  else if py_in "domain" (type_name (ioc_type (h_data s)))
       then [domain_call_of conf s]
       else [].

(** Further sample inputs. *)

(** A client whose reports carry no [results]. *)
Definition answering_nothing : VtInstance -> VtRequest -> Report :=
  fun _ _ => {| results := None |}.

(** Every flag set to the integer 1: truthy, and not [True]. *)
Definition conf_flags_one : gmap string pyval :=
  {[ "vt_api_key" := PyStr "0123abcd";
     "vt_key_is_premium" := PyInt 1;
     "vt_ip_assign_asn_as_tag" := PyInt 1;
     "vt_domain_add_whois_as_desc" := PyInt 1 ]}.

(** A configuration holding the declared parameters only. *)
Definition conf_declared_only : gmap string pyval :=
  {[ "vt_api_key" := PyStr "0123abcd";
     "vt_key_is_premium" := PyBool true;
     "vt_max_rate" := PyInt 4 ]}.

Definition results_int_asn : gmap string pyval :=
  {[ "response_code" := PyInt 1; "asn" := PyInt 15169 ]}.

Definition results_asn_only : gmap string pyval :=
  {[ "asn" := PyStr "AS1234" ]}.

Definition results_no_data_no_msg : gmap string pyval :=
  {[ "response_code" := PyInt 0 ]}.

(** A host that rejects the first registration and accepts every
    later one. *)
Definition host_rejecting_first (c : RegCall) : IIStatus pyval :=
  if String.eqb (iris_hook_name c) "on_postload_ioc_create"
  then {| kind := Error; message := PyStr "hook not available";
          data := Some (PyInt 404); logs := [] |}
  else I2Success.

(** * Properties *)

(** ** Strings *)

Lemma prefix_app (p s : string) :
  String.prefix p s = true <-> exists rest, s = p +:+ rest.
Proof.
  revert s. induction p as [|a p IH]; intros s.
  - split; [intros _; exists s; reflexivity | intros _; by destruct s].
  - destruct s as [|b s]; cbn [String.prefix].
    + split; [discriminate | intros [rest H]; discriminate H].
    + destruct (Ascii.ascii_dec a b) as [->|Hab].
      * rewrite IH. split; intros [rest H]; exists rest.
        -- rewrite H. reflexivity.
        -- injection H as H. exact H.
      * split; [discriminate | intros [rest H]].
        injection H as H1 H2. congruence.
Qed.

Lemma py_in_contains (needle hay : string) :
  py_in needle hay = true <-> contains needle hay.
Proof.
  induction hay as [|c hay IH]; cbn [py_in].
  - rewrite orb_false_r, prefix_app. split.
    + intros [rest H]. exists EmptyString, rest. exact H.
    + intros [[|b before] [after H]]; [exists after; exact H | discriminate H].
  - rewrite orb_true_iff, prefix_app, IH. split.
    + intros [[rest H] | [before [after H]]].
      * exists EmptyString, rest. exact H.
      * exists (String c before), after. rewrite H. reflexivity.
    + intros [[|b before] [after H]].
      * left. exists after. exact H.
      * right. injection H as _ H. exists before, after. exact H.
Qed.

Lemma py_in_not_contains (needle hay : string) :
  py_in needle hay = false <-> ~ contains needle hay.
Proof.
  rewrite <- py_in_contains. by destruct (py_in needle hay).
Qed.

Lemma string_app_nil_r (s : string) : s +:+ EmptyString = s.
Proof.
  induction s as [|a s IH]; [reflexivity |].
  change (String a (s +:+ EmptyString) = String a s). by rewrite IH.
Qed.

Lemma string_app_grows (s t : string) : t <> EmptyString -> s +:+ t <> s.
Proof.
  intros Ht H. rewrite <- (string_app_nil_r s) in H at 2.
  by apply (inj (String.app s)) in H.
Qed.

(** ** The two enrichment routines, path by path *)

Ltac run_hook :=
  cbv [bind ret raise gets modify in_world log_info log_error log_critical
       log_record vt_record update_data vt_request results_get];
  cbn [fst snd h_data h_world w_log w_vt w_reg].

Section Routines.

Variable conf : gmap string pyval.
Variable svc : VtInstance -> VtRequest -> Report.

Lemma ip_no_results s :
  results (ip_report_of conf svc s) = None ->
  exists e w, _handle_vt_ip conf svc s
              = (Raised e, {| h_data := h_data s; h_world := w |}).
Proof.
  unfold ip_report_of, _handle_vt_ip. intros H. run_hook. rewrite H.
  eauto.
Qed.

Lemma ip_zero s r :
  results (ip_report_of conf svc s) = Some r ->
  py_eqb (dict_get r "response_code") (PyInt 0) = true ->
  exists w, _handle_vt_ip conf svc s
            = (Ok I2Success, {| h_data := h_data s; h_world := w |})
            /\ w_vt w = (w_vt (h_world s)
                         ++ [(get_vt_instance conf,
                              get_ip_report (ioc_value (h_data s)))])%list.
Proof.
  unfold ip_report_of, _handle_vt_ip. intros H Hz. run_hook.
  rewrite H, Hz. eauto.
Qed.

Lemma ip_untagged s r :
  results (ip_report_of conf svc s) = Some r ->
  py_eqb (dict_get r "response_code") (PyInt 0) = false ->
  py_is_True (dict_get conf "vt_ip_assign_asn_as_tag") = false ->
  exists w, _handle_vt_ip conf svc s
            = (Ok I2Success, {| h_data := h_data s; h_world := w |}).
Proof.
  unfold ip_report_of, _handle_vt_ip. intros H Hz Hc. run_hook.
  rewrite H, Hz, Hc. eauto.
Qed.

Lemma ip_tagged s r :
  results (ip_report_of conf svc s) = Some r ->
  py_eqb (dict_get r "response_code") (PyInt 0) = false ->
  py_is_True (dict_get conf "vt_ip_assign_asn_as_tag") = true ->
  exists w, _handle_vt_ip conf svc s
            = (Ok I2Success,
               {| h_data := set_ioc_tags
                    (ioc_tags (h_data s) +:+ ",ASN:"
                     +:+ py_str (dict_get r "asn")) (h_data s);
                  h_world := w |})
            /\ (dict_get r "asn" = PyNone ->
                last (w_log w) = Some (INFO, "ASN was nul - skipping")).
Proof.
  unfold ip_report_of, _handle_vt_ip. intros H Hz Hc. run_hook.
  rewrite H, Hz, Hc.
  destruct (dict_get r "asn") eqn:Ha; cbn [py_is_None];
    (eexists; split; [reflexivity |]); try discriminate.
  intros _. cbn [h_world w_log]. apply last_snoc.
Qed.

Lemma domain_no_results s :
  results (domain_report_of conf svc s) = None ->
  exists e w, _handle_vt_domain conf svc s
              = (Raised e, {| h_data := h_data s; h_world := w |}).
Proof.
  unfold domain_report_of, _handle_vt_domain. intros H. run_hook.
  rewrite H. eauto.
Qed.

Lemma domain_zero s r :
  results (domain_report_of conf svc s) = Some r ->
  py_eqb (dict_get r "response_code") (PyInt 0) = true ->
  exists w, _handle_vt_domain conf svc s
            = (Ok I2Success, {| h_data := h_data s; h_world := w |}).
Proof.
  unfold domain_report_of, _handle_vt_domain. intros H Hz. run_hook.
  rewrite H, Hz. eauto.
Qed.

Lemma domain_plain s r :
  results (domain_report_of conf svc s) = Some r ->
  py_eqb (dict_get r "response_code") (PyInt 0) = false ->
  py_is_True (dict_get conf "vt_domain_add_whois_as_desc") = false ->
  exists w, _handle_vt_domain conf svc s
            = (Ok I2Success, {| h_data := h_data s; h_world := w |}).
Proof.
  unfold domain_report_of, _handle_vt_domain. intros H Hz Hc. run_hook.
  rewrite H, Hz, Hc. eauto.
Qed.

Lemma domain_described s r :
  results (domain_report_of conf svc s) = Some r ->
  py_eqb (dict_get r "response_code") (PyInt 0) = false ->
  py_is_True (dict_get conf "vt_domain_add_whois_as_desc") = true ->
  exists w, _handle_vt_domain conf svc s
            = (Ok I2Success,
               {| h_data := set_ioc_description
                    (ioc_description (h_data s) +:+ whois_heading
                     +:+ py_str (dict_get r "whois")) (h_data s);
                  h_world := w |}).
Proof.
  unfold domain_report_of, _handle_vt_domain. intros H Hz Hc. run_hook.
  rewrite H, Hz, Hc. eauto.
Qed.

End Routines.

(** ** Hook registration *)

(** Whatever the host answers, all four registrations are attempted, in
    order, and every log line is chosen by the status of the first. *)
Lemma register_hooks_run host module_id w :
  register_hooks host module_id w
  = (Ok tt,
     {| w_log := (w_log w ++
          if is_failure (host (plain_call module_id "on_postload_ioc_create"))
          then
            let status := host (plain_call module_id "on_postload_ioc_create") in
            let complaint := [ (ERROR, py_str (get_message status));
                               (ERROR, py_str (get_data status)) ] in
            complaint ++ complaint ++ complaint ++ complaint
          else registered_line <$> registered_hook_names)%list;
        w_vt := w_vt w;
        w_reg := (w_reg w ++ registered_calls module_id)%list |}).
Proof.
  unfold register_hooks, register_to_hook, plain_call.
  cbv [bind ret modify log_record reg_record].
  cbn [w_log w_vt w_reg].
  destruct (is_failure _); cbn [w_log w_vt w_reg];
    rewrite <- !(assoc_L (++)); reflexivity.
Qed.

(** C2 (the code departs from it): [status] is bound by the first
    registration only, so once the first hook is accepted the success
    line of every later hook is logged whatever the host answered to
    that later registration, rejections included. *)
Theorem register_hooks_reports_first_status host module_id w :
  is_failure (host (plain_call module_id "on_postload_ioc_create")) = false ->
  register_hooks host module_id w
  = (Ok tt,
     {| w_log := (w_log w ++
          [ (INFO, "Successfully registered on_postload_ioc_create hook");
            (INFO, "Successfully registered on_postload_ioc_update hook");
            (INFO, "Successfully registered on_preload_ioc_update hook");
            (INFO, "Successfully registered on_manual_trigger_ioc hook") ])%list;
        w_vt := w_vt w;
        w_reg := (w_reg w ++ registered_calls module_id)%list |}).
Proof.
  intros H. rewrite register_hooks_run, H. reflexivity.
Qed.

Lemma register_hooks_reports_first_status_witness :
  is_failure (host_rejecting_later (plain_call 7 "on_postload_ioc_update")) = true
  /\ register_hooks host_rejecting_later 7 empty_world
     = (Ok tt,
        {| w_log :=
             [ (INFO, "Successfully registered on_postload_ioc_create hook");
               (INFO, "Successfully registered on_postload_ioc_update hook");
               (INFO, "Successfully registered on_preload_ioc_update hook");
               (INFO, "Successfully registered on_manual_trigger_ioc hook") ];
           w_vt := [];
           w_reg := registered_calls 7 |}).
Proof.
  split; [reflexivity |].
  apply (register_hooks_reports_first_status host_rejecting_later 7 empty_world).
  reflexivity.
Defined.

(** ** Classification *)

Lemma handle_ioc_ip conf svc s :
  py_in "ip-" (type_name (ioc_type (h_data s))) = true ->
  _handle_ioc conf svc s = _handle_vt_ip conf svc s.
Proof.
  intros H. unfold _handle_ioc. cbv [bind gets]. by rewrite H.
Qed.

Lemma handle_ioc_domain conf svc s :
  py_in "ip-" (type_name (ioc_type (h_data s))) = false ->
  py_in "domain" (type_name (ioc_type (h_data s))) = true ->
  _handle_ioc conf svc s = _handle_vt_domain conf svc s.
Proof.
  intros H1 H2. unfold _handle_ioc. cbv [bind gets]. by rewrite H1, H2.
Qed.

Lemma handle_ioc_skip conf svc s :
  py_in "ip-" (type_name (ioc_type (h_data s))) = false ->
  py_in "domain" (type_name (ioc_type (h_data s))) = false ->
  _handle_ioc conf svc s
  = (Ok (with_data I2Success (h_data s)),
     {| h_data := h_data s;
        h_world :=
          {| w_log := (w_log (h_world s) ++
               [ (ERROR, "IOC type " +:+ type_name (ioc_type (h_data s))
                         +:+ " not handled by VT module. Skipping") ])%list;
             w_vt := w_vt (h_world s);
             w_reg := w_reg (h_world s) |} |}).
Proof.
  intros H1 H2. unfold _handle_ioc. run_hook. by rewrite H1, H2.
Qed.

(** C3 as written fails: a type name that contains both markers is
    handed to the IP routine, the ["ip-"] test coming first. *)
Lemma handle_ioc_domain_name_sent_to_ip :
  contains "domain" (type_name (ioc_type (h_data (sample_state "ip-domain" "example.org"))))
  /\ _handle_ioc sample_conf (answering results_with_whois)
       (sample_state "ip-domain" "example.org")
     = _handle_vt_ip sample_conf (answering results_with_whois)
         (sample_state "ip-domain" "example.org")
  /\ _handle_ioc sample_conf (answering results_with_whois)
       (sample_state "ip-domain" "example.org")
     <> _handle_vt_domain sample_conf (answering results_with_whois)
          (sample_state "ip-domain" "example.org").
Proof.
  split; [| split].
  - exists "ip-", EmptyString. reflexivity.
  - apply handle_ioc_ip. reflexivity.
  - rewrite handle_ioc_ip by reflexivity. intros H.
    apply (f_equal (fun p => ioc_description (h_data (snd p)))) in H.
    vm_compute in H. discriminate H.
Qed.

(** C3, amended: a type name containing ["ip-"] goes to the IP routine;
    one containing ["domain"] and not ["ip-"] goes to the domain
    routine; any other is skipped with a success status, the indicator
    untouched and the client not asked. *)
Theorem handle_ioc_classification conf svc s :
  (contains "ip-" (type_name (ioc_type (h_data s))) ->
   _handle_ioc conf svc s = _handle_vt_ip conf svc s)
  /\ (~ contains "ip-" (type_name (ioc_type (h_data s))) ->
      contains "domain" (type_name (ioc_type (h_data s))) ->
      _handle_ioc conf svc s = _handle_vt_domain conf svc s)
  /\ (~ contains "ip-" (type_name (ioc_type (h_data s))) ->
      ~ contains "domain" (type_name (ioc_type (h_data s))) ->
      exists st w,
        _handle_ioc conf svc s = (Ok st, {| h_data := h_data s; h_world := w |})
        /\ is_failure st = false
        /\ data st = Some (h_data s)
        /\ w_vt w = w_vt (h_world s)).
Proof.
  split; [| split].
  - intros H%py_in_contains. by apply handle_ioc_ip.
  - intros H1%py_in_not_contains H2%py_in_contains. by apply handle_ioc_domain.
  - intros H1%py_in_not_contains H2%py_in_not_contains.
    rewrite handle_ioc_skip by done. eauto 10.
Qed.

Lemma handle_ioc_classification_witness :
  _handle_ioc sample_conf (answering results_with_asn)
    (sample_state "ip-dst" "203.0.113.7")
  = _handle_vt_ip sample_conf (answering results_with_asn)
      (sample_state "ip-dst" "203.0.113.7")
  /\ _handle_ioc sample_conf (answering results_with_whois)
       (sample_state "domain" "example.org")
     = _handle_vt_domain sample_conf (answering results_with_whois)
         (sample_state "domain" "example.org")
  /\ exists st w,
       _handle_ioc sample_conf (answering results_with_asn)
         (sample_state "md5" "9e107d9d372bb6826bd81d3542a419d6")
       = (Ok st, {| h_data := h_data (sample_state "md5" "9e107d9d372bb6826bd81d3542a419d6");
                    h_world := w |})
       /\ is_failure st = false
       /\ data st = Some (h_data (sample_state "md5" "9e107d9d372bb6826bd81d3542a419d6"))
       /\ w_vt w = [].
Proof.
  split; [| split].
  - apply (handle_ioc_classification sample_conf (answering results_with_asn)
             (sample_state "ip-dst" "203.0.113.7")).
    apply py_in_contains. reflexivity.
  - apply (handle_ioc_classification sample_conf (answering results_with_whois)
             (sample_state "domain" "example.org")).
    + apply py_in_not_contains. reflexivity.
    + apply py_in_contains. reflexivity.
  - apply (handle_ioc_classification sample_conf (answering results_with_asn)
             (sample_state "md5" "9e107d9d372bb6826bd81d3542a419d6")).
    + apply py_in_not_contains. reflexivity.
    + apply py_in_not_contains. reflexivity.
Defined.

(** ** Enrichment *)

(** C4: when the report's response code equals 0, the IP routine and
    the domain routine both return a success status and leave the
    indicator exactly as it was, whatever the configuration. *)
Theorem zero_response_code_changes_nothing conf svc s :
  (forall r,
     results (ip_report_of conf svc s) = Some r ->
     py_eqb (dict_get r "response_code") (PyInt 0) = true ->
     exists st s',
       _handle_vt_ip conf svc s = (Ok st, s')
       /\ is_failure st = false /\ h_data s' = h_data s)
  /\ (forall r,
        results (domain_report_of conf svc s) = Some r ->
        py_eqb (dict_get r "response_code") (PyInt 0) = true ->
        exists st s',
          _handle_vt_domain conf svc s = (Ok st, s')
          /\ is_failure st = false /\ h_data s' = h_data s).
Proof.
  split; intros r Hr Hz.
  - destruct (ip_zero conf svc s r Hr Hz) as (w & -> & _). eauto.
  - destruct (domain_zero conf svc s r Hr Hz) as (w & ->). eauto.
Qed.

Lemma zero_response_code_changes_nothing_witness :
  (exists st s',
     _handle_vt_ip sample_conf (answering results_no_data)
       (sample_state "ip-dst" "203.0.113.7") = (Ok st, s')
     /\ is_failure st = false
     /\ h_data s' = h_data (sample_state "ip-dst" "203.0.113.7"))
  /\ (exists st s',
        _handle_vt_domain sample_conf (answering results_no_data)
          (sample_state "domain" "example.org") = (Ok st, s')
        /\ is_failure st = false
        /\ h_data s' = h_data (sample_state "domain" "example.org")).
Proof.
  split.
  - apply (proj1 (zero_response_code_changes_nothing sample_conf
                    (answering results_no_data)
                    (sample_state "ip-dst" "203.0.113.7")) results_no_data);
      reflexivity.
  - apply (proj2 (zero_response_code_changes_nothing sample_conf
                    (answering results_no_data)
                    (sample_state "domain" "example.org")) results_no_data);
      reflexivity.
Defined.

Lemma conf_flag_is_True (conf : gmap string pyval) (k : string) :
  conf !! k = Some (PyBool true) -> py_is_True (dict_get conf k) = true.
Proof. unfold dict_get. by intros ->. Qed.

(** C1 (the code departs from it): with tagging enabled and a non-zero
    response code, an absent ASN makes the routine log that it skips,
    and the tag string is extended all the same, by [",ASN:None"]. *)
Theorem ip_absent_asn_is_tagged_anyway conf svc s r :
  results (ip_report_of conf svc s) = Some r ->
  py_eqb (dict_get r "response_code") (PyInt 0) = false ->
  conf !! "vt_ip_assign_asn_as_tag" = Some (PyBool true) ->
  dict_get r "asn" = PyNone ->
  exists w,
    _handle_vt_ip conf svc s
    = (Ok I2Success,
       {| h_data := set_ioc_tags (ioc_tags (h_data s) +:+ ",ASN:None") (h_data s);
          h_world := w |})
    /\ last (w_log w) = Some (INFO, "ASN was nul - skipping").
Proof.
  intros Hr Hz Hc%conf_flag_is_True Ha.
  destruct (ip_tagged conf svc s r Hr Hz Hc) as (w & Hrun & Hlog).
  rewrite Ha in Hrun. eauto.
Qed.

Lemma ip_absent_asn_is_tagged_anyway_witness :
  exists w,
    _handle_vt_ip sample_conf (answering results_without_asn)
      (sample_state "ip-dst" "203.0.113.7")
    = (Ok I2Success,
       {| h_data := {| ioc_type := {| type_name := "ip-dst" |};
                       ioc_value := "203.0.113.7";
                       ioc_description := "seen in proxy logs";
                       ioc_tags := "c2,apt,ASN:None" |};
          h_world := w |})
    /\ last (w_log w) = Some (INFO, "ASN was nul - skipping").
Proof.
  apply (ip_absent_asn_is_tagged_anyway sample_conf
           (answering results_without_asn)
           (sample_state "ip-dst" "203.0.113.7") results_without_asn);
    reflexivity.
Defined.

(** C5: with tagging enabled, a non-zero response code and the ASN
    ["AS1234"], the tag string after the IP routine is the original one
    followed by [",ASN:AS1234"]. *)
Theorem ip_asn_tag_appended conf svc s r :
  results (ip_report_of conf svc s) = Some r ->
  py_eqb (dict_get r "response_code") (PyInt 0) = false ->
  r !! "asn" = Some (PyStr "AS1234") ->
  conf !! "vt_ip_assign_asn_as_tag" = Some (PyBool true) ->
  exists st s',
    _handle_vt_ip conf svc s = (Ok st, s')
    /\ ioc_tags (h_data s') = ioc_tags (h_data s) +:+ ",ASN:AS1234".
Proof.
  intros Hr Hz Ha Hc%conf_flag_is_True.
  destruct (ip_tagged conf svc s r Hr Hz Hc) as (w & -> & _).
  unfold dict_get. rewrite Ha. eauto.
Qed.

Lemma ip_asn_tag_appended_witness :
  exists st s',
    _handle_vt_ip sample_conf (answering results_with_asn)
      (sample_state "ip-dst" "203.0.113.7") = (Ok st, s')
    /\ ioc_tags (h_data s') = "c2,apt,ASN:AS1234".
Proof.
  apply (ip_asn_tag_appended sample_conf (answering results_with_asn)
           (sample_state "ip-dst" "203.0.113.7") results_with_asn);
    reflexivity.
Defined.

(** C6: with the whois option enabled, a non-zero response code and the
    whois text ["registrar: example"], the description after the domain
    routine is the original one followed by two line feeds, [WHOIS], a
    line feed, a space and the whois text. *)
Theorem domain_whois_appended conf svc s r :
  results (domain_report_of conf svc s) = Some r ->
  py_eqb (dict_get r "response_code") (PyInt 0) = false ->
  r !! "whois" = Some (PyStr "registrar: example") ->
  conf !! "vt_domain_add_whois_as_desc" = Some (PyBool true) ->
  exists st s',
    _handle_vt_domain conf svc s = (Ok st, s')
    /\ ioc_description (h_data s')
       = ioc_description (h_data s)
         +:+ LF +:+ LF +:+ "WHOIS" +:+ LF +:+ " registrar: example".
Proof.
  intros Hr Hz Ha Hc%conf_flag_is_True.
  destruct (domain_described conf svc s r Hr Hz Hc) as (w & ->).
  unfold dict_get. rewrite Ha. eauto.
Qed.

Lemma domain_whois_appended_witness :
  exists st s',
    _handle_vt_domain sample_conf (answering results_with_whois)
      (sample_state "domain" "example.org") = (Ok st, s')
    /\ ioc_description (h_data s')
       = "seen in proxy logs" +:+ LF +:+ LF +:+ "WHOIS" +:+ LF
         +:+ " registrar: example".
Proof.
  apply (domain_whois_appended sample_conf (answering results_with_whois)
           (sample_state "domain" "example.org") results_with_whois);
    reflexivity.
Defined.

(** C9: tagging is not idempotent.  With tagging enabled and a report
    of non-zero response code whose ASN is present, a second run of the
    IP routine appends the [ASN:] tag a second time. *)
Theorem ip_tagging_not_idempotent conf svc s r :
  results (ip_report_of conf svc s) = Some r ->
  py_eqb (dict_get r "response_code") (PyInt 0) = false ->
  conf !! "vt_ip_assign_asn_as_tag" = Some (PyBool true) ->
  dict_get r "asn" <> PyNone ->
  exists s1 s2,
    snd (_handle_vt_ip conf svc s) = s1
    /\ snd (_handle_vt_ip conf svc s1) = s2
    /\ ip_report_of conf svc s1 = ip_report_of conf svc s
    /\ ioc_tags (h_data s1)
       = ioc_tags (h_data s) +:+ ",ASN:" +:+ py_str (dict_get r "asn")
    /\ ioc_tags (h_data s2)
       = (ioc_tags (h_data s) +:+ ",ASN:" +:+ py_str (dict_get r "asn"))
         +:+ ",ASN:" +:+ py_str (dict_get r "asn")
    /\ ioc_tags (h_data s2) <> ioc_tags (h_data s1).
Proof.
  intros Hr Hz Hc%conf_flag_is_True _.
  destruct (ip_tagged conf svc s r Hr Hz Hc) as (w1 & Hrun1 & _).
  set (s1 := snd (_handle_vt_ip conf svc s)).
  assert (Hs1 : h_data s1 = set_ioc_tags
            (ioc_tags (h_data s) +:+ ",ASN:" +:+ py_str (dict_get r "asn"))
            (h_data s)) by (unfold s1; by rewrite Hrun1).
  assert (Hsame : ip_report_of conf svc s1 = ip_report_of conf svc s)
    by (unfold ip_report_of; by rewrite Hs1).
  assert (Hr1 : results (ip_report_of conf svc s1) = Some r) by by rewrite Hsame.
  destruct (ip_tagged conf svc s1 r Hr1 Hz Hc) as (w2 & Hrun2 & _).
  exists s1, (snd (_handle_vt_ip conf svc s1)).
  rewrite Hrun2, Hs1. cbn [snd h_data ioc_tags set_ioc_tags].
  repeat split; try done.
  by apply string_app_grows.
Qed.

Lemma ip_tagging_not_idempotent_witness :
  exists s1 s2,
    snd (_handle_vt_ip sample_conf (answering results_with_asn)
           (sample_state "ip-dst" "203.0.113.7")) = s1
    /\ snd (_handle_vt_ip sample_conf (answering results_with_asn) s1) = s2
    /\ ioc_tags (h_data s1) = "c2,apt,ASN:AS1234"
    /\ ioc_tags (h_data s2) = "c2,apt,ASN:AS1234,ASN:AS1234".
Proof.
  destruct (ip_tagging_not_idempotent sample_conf (answering results_with_asn)
              (sample_state "ip-dst" "203.0.113.7") results_with_asn)
    as (s1 & s2 & H1 & H2 & _ & H3 & H4 & _);
    [reflexivity | reflexivity | reflexivity | discriminate |].
  exists s1, s2. repeat split; assumption.
Defined.

(** ** Dispatch *)

(** C7: on [on_preload_ioc_update] the handler writes ["changed"] into
    the value field whatever it held, sends nothing to the VT client,
    and returns a Success envelope around the data object. *)
Theorem preload_hook_sets_value_changed conf svc s :
  exists env s',
    hooks_handler conf svc "on_preload_ioc_update" s = (Ok env, s')
    /\ ioc_value (h_data s') = "changed"
    /\ h_data s' = set_ioc_value "changed" (h_data s)
    /\ w_vt (h_world s') = w_vt (h_world s)
    /\ kind env = Success
    /\ data env = Some (h_data s').
Proof.
  unfold hooks_handler, conclude, envelope.
  cbn [String.eqb Ascii.eqb Bool.eqb]. run_hook.
  cbn [is_failure kind I2Success]. cbv [bind ret gets modify].
  do 2 eexists. split; [reflexivity |]. by cbn.
Qed.

Lemma hook_name_unsupported hook_name :
  hook_name ∉ registered_hook_names ->
  String.eqb hook_name "on_postload_ioc_create" = false
  /\ String.eqb hook_name "on_postload_ioc_update" = false
  /\ String.eqb hook_name "on_preload_ioc_update" = false
  /\ String.eqb hook_name "on_manual_trigger_ioc" = false.
Proof.
  intros H. repeat split; apply String.eqb_neq; intros ->; apply H;
    unfold registered_hook_names; cbn; set_solver.
Qed.

(** C8: a hook name outside the four registered ones yields an Error
    envelope around the input data object, and the data object is left
    as it was. *)
Theorem unsupported_hook_is_error conf svc hook_name s :
  hook_name ∉ registered_hook_names ->
  exists env s',
    hooks_handler conf svc hook_name s = (Ok env, s')
    /\ kind env = Error
    /\ data env = Some (h_data s)
    /\ h_data s' = h_data s
    /\ w_vt (h_world s') = w_vt (h_world s).
Proof.
  intros (H1 & H2 & H3 & H4)%hook_name_unsupported.
  unfold hooks_handler, envelope. run_hook. rewrite H1, H2, H3, H4.
  do 2 eexists. split; [reflexivity |]. by cbn.
Qed.

Lemma unsupported_hook_is_error_witness :
  exists env s',
    hooks_handler sample_conf (answering results_with_asn) "unknown_event"
      (sample_state "ip-dst" "203.0.113.7") = (Ok env, s')
    /\ kind env = Error
    /\ data env = Some (h_data (sample_state "ip-dst" "203.0.113.7"))
    /\ h_data s' = h_data (sample_state "ip-dst" "203.0.113.7")
    /\ w_vt (h_world s') = [].
Proof.
  apply (unsupported_hook_is_error sample_conf (answering results_with_asn)
           "unknown_event" (sample_state "ip-dst" "203.0.113.7")).
  apply (bool_decide_unpack _). vm_compute. reflexivity.
Defined.

(** ** No failure status *)

Lemma ip_returns_success conf svc s :
  results (ip_report_of conf svc s) <> None ->
  exists s', _handle_vt_ip conf svc s = (Ok I2Success, s').
Proof.
  destruct (results (ip_report_of conf svc s)) as [r|] eqn:Hr; [intros _ | done].
  destruct (py_eqb (dict_get r "response_code") (PyInt 0)) eqn:Hz.
  { destruct (ip_zero conf svc s r Hr Hz) as (w & -> & _). eauto. }
  destruct (py_is_True (dict_get conf "vt_ip_assign_asn_as_tag")) eqn:Hc.
  - destruct (ip_tagged conf svc s r Hr Hz Hc) as (w & -> & _). eauto.
  - destruct (ip_untagged conf svc s r Hr Hz Hc) as (w & ->). eauto.
Qed.

Lemma domain_returns_success conf svc s :
  results (domain_report_of conf svc s) <> None ->
  exists s', _handle_vt_domain conf svc s = (Ok I2Success, s').
Proof.
  destruct (results (domain_report_of conf svc s)) as [r|] eqn:Hr;
    [intros _ | done].
  destruct (py_eqb (dict_get r "response_code") (PyInt 0)) eqn:Hz.
  { destruct (domain_zero conf svc s r Hr Hz) as (w & ->). eauto. }
  destruct (py_is_True (dict_get conf "vt_domain_add_whois_as_desc")) eqn:Hc.
  - destruct (domain_described conf svc s r Hr Hz Hc) as (w & ->). eauto.
  - destruct (domain_plain conf svc s r Hr Hz Hc) as (w & ->). eauto.
Qed.

Lemma handle_ioc_returns_success conf svc s :
  (forall vt q, results (svc vt q) <> None) ->
  exists st s', _handle_ioc conf svc s = (Ok st, s') /\ is_failure st = false.
Proof.
  intros Hsvc.
  destruct (py_in "ip-" (type_name (ioc_type (h_data s)))) eqn:H1.
  { rewrite handle_ioc_ip by done.
    destruct (ip_returns_success conf svc s) as (s' & ->); [apply Hsvc | eauto]. }
  destruct (py_in "domain" (type_name (ioc_type (h_data s)))) eqn:H2.
  { rewrite handle_ioc_domain by done.
    destruct (domain_returns_success conf svc s) as (s' & ->);
      [apply Hsvc | eauto]. }
  rewrite handle_ioc_skip by done. eauto.
Qed.

Lemma conclude_success hook_name st s :
  @is_failure Ioc st = false ->
  exists env s', conclude hook_name st s = (Ok env, s') /\ kind env = Success.
Proof.
  intros H. unfold conclude, envelope. rewrite H. run_hook. eauto.
Qed.

Lemma delegating_hook_runs_handle_ioc conf svc hook_name s :
  hook_name ∈ delegating_hook_names ->
  hooks_handler conf svc hook_name s
  = (status <- _handle_ioc conf svc;; conclude hook_name status)
      (snd (log_info ("Received " +:+ hook_name) s)).
Proof.
  unfold delegating_hook_names. rewrite !elem_of_cons, elem_of_nil.
  intros [-> | [-> | [-> | []]]]; reflexivity.
Qed.

(** C10: when the client answers every request with a report that has
    its [results], the IP routine, the domain routine and [_handle_ioc]
    each return a status that is not a failure, and for the three hook
    names that delegate to [_handle_ioc] the handler returns a Success
    envelope. *)
Theorem delegating_hooks_always_succeed conf svc :
  (forall vt q, results (svc vt q) <> None) ->
  forall s,
    (exists st s', _handle_vt_ip conf svc s = (Ok st, s')
                   /\ is_failure st = false)
    /\ (exists st s', _handle_vt_domain conf svc s = (Ok st, s')
                      /\ is_failure st = false)
    /\ (exists st s', _handle_ioc conf svc s = (Ok st, s')
                      /\ is_failure st = false)
    /\ (forall hook_name,
          hook_name ∈ delegating_hook_names ->
          exists env s', hooks_handler conf svc hook_name s = (Ok env, s')
                         /\ kind env = Success).
Proof.
  intros Hsvc s. repeat split.
  - destruct (ip_returns_success conf svc s) as (s' & ->); [apply Hsvc | eauto].
  - destruct (domain_returns_success conf svc s) as (s' & ->);
      [apply Hsvc | eauto].
  - by apply handle_ioc_returns_success.
  - intros hook_name Hin.
    rewrite delegating_hook_runs_handle_ioc by done.
    set (s0 := snd (log_info ("Received " +:+ hook_name) s)).
    destruct (handle_ioc_returns_success conf svc s0 Hsvc) as (st & s1 & Hrun & Hok).
    unfold bind. rewrite Hrun. by apply conclude_success.
Qed.

Lemma delegating_hooks_always_succeed_witness :
  exists env s',
    hooks_handler sample_conf (answering results_with_asn)
      "on_manual_trigger_ioc" (sample_state "ip-dst" "203.0.113.7")
    = (Ok env, s')
    /\ kind env = Success.
Proof.
  apply (delegating_hooks_always_succeed sample_conf
           (answering results_with_asn)).
  - intros vt q. discriminate.
  - apply (bool_decide_unpack _). vm_compute. reflexivity.
Defined.

(** ** Every path of the routines at once *)

Ltac all_paths :=
  run_hook;
  repeat match goal with
  | |- context [ results ?r ] => destruct (results r) as [?|]
  | |- context [ if ?b then _ else _ ] => destruct b
  end;
  cbn [fst snd h_data h_world w_log w_vt w_reg
       ioc_type ioc_value ioc_description ioc_tags
       set_ioc_tags set_ioc_description].

(** What a run of the IP routine may change: the tag string, only by
    appending; the log, only by appending; and the list of requests, by
    the one request it sends. *)
Lemma ip_run_effect conf svc s :
  ioc_type (h_data (snd (_handle_vt_ip conf svc s))) = ioc_type (h_data s)
  /\ ioc_value (h_data (snd (_handle_vt_ip conf svc s))) = ioc_value (h_data s)
  /\ ioc_description (h_data (snd (_handle_vt_ip conf svc s)))
     = ioc_description (h_data s)
  /\ (exists added, ioc_tags (h_data (snd (_handle_vt_ip conf svc s)))
                    = ioc_tags (h_data s) +:+ added)
  /\ w_vt (h_world (snd (_handle_vt_ip conf svc s)))
     = (w_vt (h_world s) ++ [ip_call_of conf s])%list
  /\ w_reg (h_world (snd (_handle_vt_ip conf svc s))) = w_reg (h_world s)
  /\ (exists lines, w_log (h_world (snd (_handle_vt_ip conf svc s)))
                    = (w_log (h_world s) ++ lines)%list).
Proof.
  unfold _handle_vt_ip, ip_call_of. all_paths.
  all: repeat split; try reflexivity.
  all: try (eexists; symmetry; apply string_app_nil_r).
  all: try (eexists; reflexivity).
  all: rewrite <- ?(assoc_L (++)); eexists; reflexivity.
Qed.

Lemma domain_run_effect conf svc s :
  ioc_type (h_data (snd (_handle_vt_domain conf svc s))) = ioc_type (h_data s)
  /\ ioc_value (h_data (snd (_handle_vt_domain conf svc s)))
     = ioc_value (h_data s)
  /\ ioc_tags (h_data (snd (_handle_vt_domain conf svc s)))
     = ioc_tags (h_data s)
  /\ (exists added, ioc_description (h_data (snd (_handle_vt_domain conf svc s)))
                    = ioc_description (h_data s) +:+ added)
  /\ w_vt (h_world (snd (_handle_vt_domain conf svc s)))
     = (w_vt (h_world s) ++ [domain_call_of conf s])%list
  /\ w_reg (h_world (snd (_handle_vt_domain conf svc s))) = w_reg (h_world s)
  /\ (exists lines, w_log (h_world (snd (_handle_vt_domain conf svc s)))
                    = (w_log (h_world s) ++ lines)%list).
Proof.
  unfold _handle_vt_domain, domain_call_of. all_paths.
  all: repeat split; try reflexivity.
  all: try (eexists; symmetry; apply string_app_nil_r).
  all: try (eexists; reflexivity).
  all: rewrite <- ?(assoc_L (++)); eexists; reflexivity.
Qed.

Lemma py_is_True_false (v : pyval) : v <> PyBool true -> py_is_True v = false.
Proof. by destruct v as [|[]| |]. Qed.

Lemma ip_keeps_data_when_off conf svc s :
  py_is_True (dict_get conf "vt_ip_assign_asn_as_tag") = false ->
  h_data (snd (_handle_vt_ip conf svc s)) = h_data s.
Proof.
  intros H. unfold _handle_vt_ip. rewrite H. all_paths; reflexivity.
Qed.

Lemma domain_keeps_data_when_off conf svc s :
  py_is_True (dict_get conf "vt_domain_add_whois_as_desc") = false ->
  h_data (snd (_handle_vt_domain conf svc s)) = h_data s.
Proof.
  intros H. unfold _handle_vt_domain. rewrite H. all_paths; reflexivity.
Qed.

(** The routine [_handle_ioc] picks, read off the type name. *)
Lemma handle_ioc_cases conf svc s :
  (py_in "ip-" (type_name (ioc_type (h_data s))) = true
   /\ _handle_ioc conf svc s = _handle_vt_ip conf svc s)
  \/ (py_in "ip-" (type_name (ioc_type (h_data s))) = false
      /\ py_in "domain" (type_name (ioc_type (h_data s))) = true
      /\ _handle_ioc conf svc s = _handle_vt_domain conf svc s)
  \/ (py_in "ip-" (type_name (ioc_type (h_data s))) = false
      /\ py_in "domain" (type_name (ioc_type (h_data s))) = false
      /\ _handle_ioc conf svc s
         = (Ok (with_data I2Success (h_data s)),
            {| h_data := h_data s;
               h_world :=
                 {| w_log := (w_log (h_world s) ++
                      [ (ERROR, "IOC type " +:+ type_name (ioc_type (h_data s))
                                +:+ " not handled by VT module. Skipping") ])%list;
                    w_vt := w_vt (h_world s);
                    w_reg := w_reg (h_world s) |} |})).
Proof.
  destruct (py_in "ip-" (type_name (ioc_type (h_data s)))) eqn:H1.
  { left. split; [done |]. by apply handle_ioc_ip. }
  destruct (py_in "domain" (type_name (ioc_type (h_data s)))) eqn:H2.
  { right; left. repeat split; try done. by apply handle_ioc_domain. }
  right; right. repeat split; try done. by apply handle_ioc_skip.
Qed.

Lemma handle_ioc_effect conf svc s :
  ioc_type (h_data (snd (_handle_ioc conf svc s))) = ioc_type (h_data s)
  /\ ioc_value (h_data (snd (_handle_ioc conf svc s))) = ioc_value (h_data s)
  /\ (exists added, ioc_tags (h_data (snd (_handle_ioc conf svc s)))
                    = ioc_tags (h_data s) +:+ added)
  /\ (exists added, ioc_description (h_data (snd (_handle_ioc conf svc s)))
                    = ioc_description (h_data s) +:+ added)
  /\ w_vt (h_world (snd (_handle_ioc conf svc s)))
     = (w_vt (h_world s) ++ requests_of conf s)%list
  /\ w_reg (h_world (snd (_handle_ioc conf svc s))) = w_reg (h_world s)
  /\ (exists lines, w_log (h_world (snd (_handle_ioc conf svc s)))
                    = (w_log (h_world s) ++ lines)%list).
Proof.
  unfold requests_of.
  destruct (handle_ioc_cases conf svc s)
    as [(H1 & ->) | [(H1 & H2 & ->) | (H1 & H2 & ->)]]; rewrite H1, ?H2.
  - destruct (ip_run_effect conf svc s) as (?&?&Hd&?&?&?&?).
    repeat split; try done. exists EmptyString. by rewrite string_app_nil_r.
  - destruct (domain_run_effect conf svc s) as (?&?&Ht&?&?&?&?).
    repeat split; try done. exists EmptyString. by rewrite string_app_nil_r.
  - cbn [snd h_data h_world w_vt w_reg w_log]. rewrite app_nil_r.
    repeat split; try done; try (exists EmptyString; by rewrite string_app_nil_r).
    eauto.
Qed.

(** ** The handler around the routines *)

Lemma conclude_run hook_name (st : IIStatus Ioc) s :
  conclude hook_name st s
  = (Ok (with_data_logs (if is_failure st then I2Error else I2Success)
           (h_data s)
           (w_log (h_world s) ++
              [ if is_failure st
                then (ERROR, "Encountered error processing hook " +:+ hook_name)
                else (INFO, "Successfully processed hook " +:+ hook_name) ])%list),
     {| h_data := h_data s;
        h_world :=
          {| w_log := (w_log (h_world s) ++
               [ if is_failure st
                 then (ERROR, "Encountered error processing hook " +:+ hook_name)
                 else (INFO, "Successfully processed hook " +:+ hook_name) ])%list;
             w_vt := w_vt (h_world s);
             w_reg := w_reg (h_world s) |} |}).
Proof.
  unfold conclude, envelope. destruct (is_failure st); run_hook; reflexivity.
Qed.

(** The state in which a delegating hook enters [_handle_ioc]. *)
Lemma received_state hook_name s :
  snd (log_info ("Received " +:+ hook_name) s)
  = {| h_data := h_data s;
       h_world := {| w_log := (w_log (h_world s)
                               ++ [(INFO, "Received " +:+ hook_name)])%list;
                     w_vt := w_vt (h_world s);
                     w_reg := w_reg (h_world s) |} |}.
Proof. reflexivity. Qed.

(** A delegating hook, in terms of the run of [_handle_ioc] inside. *)
Lemma delegating_hook_run conf svc hook_name s :
  hook_name ∈ delegating_hook_names ->
  hooks_handler conf svc hook_name s
  = match _handle_ioc conf svc (snd (log_info ("Received " +:+ hook_name) s)) with
    | (Ok st, s1) => conclude hook_name st s1
    | (Raised e, s1) => (Raised e, s1)
    end.
Proof.
  intros H. rewrite delegating_hook_runs_handle_ioc by done. reflexivity.
Qed.

Lemma preload_hook_run conf svc s :
  hooks_handler conf svc "on_preload_ioc_update" s
  = conclude "on_preload_ioc_update" I2Success
      {| h_data := set_ioc_value "changed" (h_data s);
         h_world := {| w_log := (w_log (h_world s)
                        ++ [(INFO, "Received on_preload_ioc_update")])%list;
                       w_vt := w_vt (h_world s);
                       w_reg := w_reg (h_world s) |} |}.
Proof. reflexivity. Qed.

Lemma unsupported_hook_run conf svc hook_name s :
  hook_name ∉ registered_hook_names ->
  hooks_handler conf svc hook_name s
  = (Ok (with_data_logs I2Error (h_data s)
           (w_log (h_world s)
            ++ [ (INFO, "Received " +:+ hook_name);
                 (CRITICAL, "Received unsupported hook " +:+ hook_name) ])%list),
     {| h_data := h_data s;
        h_world :=
          {| w_log := (w_log (h_world s)
                       ++ [ (INFO, "Received " +:+ hook_name);
                            (CRITICAL, "Received unsupported hook " +:+ hook_name) ])%list;
             w_vt := w_vt (h_world s);
             w_reg := w_reg (h_world s) |} |}).
Proof.
  intros (H1 & H2 & H3 & H4)%hook_name_unsupported.
  unfold hooks_handler, envelope. run_hook. rewrite H1, H2, H3, H4.
  run_hook. by rewrite <- !(assoc_L (++)).
Qed.

(** Every hook name is a delegating one, the preload one, or
    unsupported. *)
Lemma hook_name_cases hook_name :
  hook_name ∈ delegating_hook_names
  \/ hook_name = "on_preload_ioc_update"
  \/ hook_name ∉ registered_hook_names.
Proof.
  destruct (decide (hook_name ∈ delegating_hook_names)) as [|Hd]; [by left |].
  destruct (decide (hook_name = "on_preload_ioc_update")) as [|Hp];
    [by right; left |].
  right; right. unfold delegating_hook_names in Hd.
  unfold registered_hook_names. cbn.
  rewrite !elem_of_cons, elem_of_nil in Hd. rewrite !elem_of_cons, elem_of_nil.
  tauto.
Qed.

Lemma delegating_hook_final conf svc hook_name s :
  hook_name ∈ delegating_hook_names ->
  h_data (snd (hooks_handler conf svc hook_name s))
  = h_data (snd (_handle_ioc conf svc
                   (snd (log_info ("Received " +:+ hook_name) s))))
  /\ w_vt (h_world (snd (hooks_handler conf svc hook_name s)))
     = w_vt (h_world (snd (_handle_ioc conf svc
                             (snd (log_info ("Received " +:+ hook_name) s)))))
  /\ w_reg (h_world (snd (hooks_handler conf svc hook_name s)))
     = w_reg (h_world (snd (_handle_ioc conf svc
                              (snd (log_info ("Received " +:+ hook_name) s))))).
Proof.
  intros H. rewrite delegating_hook_run by done.
  destruct (_handle_ioc conf svc _) as [[st|e] s1]; [| done].
  by rewrite conclude_run.
Qed.

Lemma handle_ioc_keeps_data_when_off conf svc s :
  py_is_True (dict_get conf "vt_ip_assign_asn_as_tag") = false ->
  py_is_True (dict_get conf "vt_domain_add_whois_as_desc") = false ->
  h_data (snd (_handle_ioc conf svc s)) = h_data s.
Proof.
  intros Hi Hd.
  destruct (handle_ioc_cases conf svc s)
    as [(_ & ->) | [(_ & _ & ->) | (_ & _ & ->)]].
  - by apply ip_keeps_data_when_off.
  - by apply domain_keeps_data_when_off.
  - reflexivity.
Qed.

(** ** What the routines send and keep *)


(** X2: unless the option [vt_ip_assign_asn_as_tag] is the value [True]
    itself, the IP routine leaves the indicator as it was, whatever the
    report; a missing option and a truthy one such as 1 count as off. *)
Theorem ip_option_off_keeps_indicator conf svc s :
  dict_get conf "vt_ip_assign_asn_as_tag" <> PyBool true ->
  h_data (snd (_handle_vt_ip conf svc s)) = h_data s.
Proof.
  intros H%py_is_True_false. by apply ip_keeps_data_when_off.
Qed.

Lemma ip_option_off_keeps_indicator_witness :
  py_truthy (dict_get conf_flags_one "vt_ip_assign_asn_as_tag") = true
  /\ h_data (snd (_handle_vt_ip conf_flags_one (answering results_with_asn)
                    (sample_state "ip-dst" "203.0.113.7")))
     = h_data (sample_state "ip-dst" "203.0.113.7").
Proof.
  split; [reflexivity |].
  apply (ip_option_off_keeps_indicator conf_flags_one
           (answering results_with_asn) (sample_state "ip-dst" "203.0.113.7")).
  discriminate.
Defined.

(** X3: unless the option [vt_domain_add_whois_as_desc] is the value
    [True] itself, the domain routine leaves the indicator as it was,
    whatever the report. *)
Theorem domain_option_off_keeps_indicator conf svc s :
  dict_get conf "vt_domain_add_whois_as_desc" <> PyBool true ->
  h_data (snd (_handle_vt_domain conf svc s)) = h_data s.
Proof.
  intros H%py_is_True_false. by apply domain_keeps_data_when_off.
Qed.

Lemma domain_option_off_keeps_indicator_witness :
  py_truthy (dict_get conf_flags_one "vt_domain_add_whois_as_desc") = true
  /\ h_data (snd (_handle_vt_domain conf_flags_one
                    (answering results_with_whois)
                    (sample_state "domain" "example.org")))
     = h_data (sample_state "domain" "example.org").
Proof.
  split; [reflexivity |].
  apply (domain_option_off_keeps_indicator conf_flags_one
           (answering results_with_whois)
           (sample_state "domain" "example.org")).
  discriminate.
Defined.

Lemma undeclared_key_is_None (conf : gmap string pyval) (k : string) :
  (forall k', is_Some (conf !! k') -> k' ∈ declared_param_names) ->
  k ∉ declared_param_names ->
  dict_get conf k = PyNone.
Proof.
  intros Hdecl Hk. unfold dict_get.
  destruct (conf !! k) as [v|] eqn:Hv; [| done].
  destruct Hk. apply Hdecl. by rewrite Hv.
Qed.

(** X4: the two enrichment options are not among the parameters
    [module_configuration] declares.  With a configuration that holds
    declared parameters only, no hook other than [on_preload_ioc_update]
    ever changes the indicator. *)
Theorem declared_configuration_never_enriches conf svc hook_name s :
  (forall k, is_Some (conf !! k) -> k ∈ declared_param_names) ->
  hook_name <> "on_preload_ioc_update" ->
  h_data (snd (hooks_handler conf svc hook_name s)) = h_data s.
Proof.
  intros Hdecl Hpre.
  assert (Hi : py_is_True (dict_get conf "vt_ip_assign_asn_as_tag") = false).
  { rewrite (undeclared_key_is_None conf); [done | done |].
    apply (bool_decide_unpack _). by vm_compute. }
  assert (Hd : py_is_True (dict_get conf "vt_domain_add_whois_as_desc") = false).
  { rewrite (undeclared_key_is_None conf); [done | done |].
    apply (bool_decide_unpack _). by vm_compute. }
  destruct (hook_name_cases hook_name) as [Hin | [-> | Hun]]; [| done |].
  - destruct (delegating_hook_final conf svc hook_name s Hin) as (-> & _).
    by rewrite handle_ioc_keeps_data_when_off.
  - by rewrite unsupported_hook_run.
Qed.

Lemma declared_configuration_never_enriches_witness :
  h_data (snd (hooks_handler conf_declared_only (answering results_with_asn)
                 "on_postload_ioc_create"
                 (sample_state "ip-dst" "203.0.113.7")))
  = h_data (sample_state "ip-dst" "203.0.113.7").
Proof.
  apply (declared_configuration_never_enriches conf_declared_only
           (answering results_with_asn) "on_postload_ioc_create"
           (sample_state "ip-dst" "203.0.113.7")).
  - intros k [v Hk]. unfold conf_declared_only in Hk.
    apply (bool_decide_unpack _).
    destruct (decide (k = "vt_api_key")) as [-> | H1]; [by vm_compute |].
    destruct (decide (k = "vt_key_is_premium")) as [-> | H2]; [by vm_compute |].
    destruct (decide (k = "vt_max_rate")) as [-> | H3]; [by vm_compute |].
    exfalso. rewrite !lookup_insert_ne, lookup_singleton_ne in Hk by done.
    discriminate Hk.
  - discriminate.
Defined.

(** ** The configuration keys that matter *)

Lemma conf_agree_keys c1 c2 :
  conf_agree c1 c2 ->
  dict_get c1 "vt_key_is_premium" = dict_get c2 "vt_key_is_premium"
  /\ dict_get c1 "vt_api_key" = dict_get c2 "vt_api_key"
  /\ dict_get c1 "vt_domain_add_whois_as_desc"
     = dict_get c2 "vt_domain_add_whois_as_desc"
  /\ dict_get c1 "vt_ip_assign_asn_as_tag"
     = dict_get c2 "vt_ip_assign_asn_as_tag".
Proof.
  unfold conf_agree, conf_keys_read. rewrite !Forall_cons. tauto.
Qed.

Lemma handle_ioc_conf_agree c1 c2 svc s :
  conf_agree c1 c2 -> _handle_ioc c1 svc s = _handle_ioc c2 svc s.
Proof.
  intros (Hp & Hk & Hw & Ha)%conf_agree_keys.
  unfold _handle_ioc, _handle_vt_ip, _handle_vt_domain, get_vt_instance.
  by rewrite Hp, Hk, Hw, Ha.
Qed.

(** X5: the handler reads the configuration through four keys only
    ([vt_key_is_premium], [vt_api_key], [vt_domain_add_whois_as_desc],
    [vt_ip_assign_asn_as_tag]).  Two configurations that agree on them
    give the same result and the same final state for every hook; the
    declared [vt_max_rate], in particular, has no effect. *)
Theorem handler_reads_four_keys c1 c2 svc hook_name s :
  conf_agree c1 c2 ->
  hooks_handler c1 svc hook_name s = hooks_handler c2 svc hook_name s.
Proof.
  intros H.
  destruct (hook_name_cases hook_name) as [Hin | [-> | Hun]].
  - rewrite !delegating_hook_run by done.
    by rewrite (handle_ioc_conf_agree c1 c2).
  - by rewrite !preload_hook_run.
  - by rewrite !unsupported_hook_run.
Qed.

Lemma handler_reads_four_keys_witness :
  hooks_handler (<[ "vt_max_rate" := PyInt 4 ]> sample_conf)
    (answering results_with_asn) "on_postload_ioc_update"
    (sample_state "ip-dst" "203.0.113.7")
  = hooks_handler sample_conf (answering results_with_asn)
      "on_postload_ioc_update" (sample_state "ip-dst" "203.0.113.7").
Proof.
  apply (handler_reads_four_keys (<[ "vt_max_rate" := PyInt 4 ]> sample_conf)
           sample_conf).
  unfold conf_agree, conf_keys_read. repeat constructor.
Defined.

(** ** Reports without results *)

Lemma ip_no_results_run conf svc s :
  results (ip_report_of conf svc s) = None ->
  _handle_vt_ip conf svc s
  = (Raised (AttributeError "'NoneType' object has no attribute 'get'"),
     {| h_data := h_data s;
        h_world :=
          {| w_log := (w_log (h_world s)
                       ++ [ (INFO, "Getting IP report for " +:+ ioc_value (h_data s));
                            (INFO, "VT report fetched.") ])%list;
             w_vt := (w_vt (h_world s) ++ [ip_call_of conf s])%list;
             w_reg := w_reg (h_world s) |} |}).
Proof.
  unfold ip_report_of, _handle_vt_ip, ip_call_of. intros H. run_hook.
  rewrite H. by rewrite <- !(assoc_L (++)).
Qed.

Lemma domain_no_results_run conf svc s :
  results (domain_report_of conf svc s) = None ->
  _handle_vt_domain conf svc s
  = (Raised (AttributeError "'NoneType' object has no attribute 'get'"),
     {| h_data := h_data s;
        h_world :=
          {| w_log := (w_log (h_world s)
                       ++ [ (INFO, "Getting domain report for "
                                   +:+ ioc_value (h_data s));
                            (INFO, "VT report fetched.") ])%list;
             w_vt := (w_vt (h_world s) ++ [domain_call_of conf s])%list;
             w_reg := w_reg (h_world s) |} |}).
Proof.
  unfold domain_report_of, _handle_vt_domain, domain_call_of. intros H.
  run_hook. rewrite H. by rewrite <- !(assoc_L (++)).
Qed.

(** X6: when the report for an IP indicator has no [results], a
    delegating hook does not return an envelope: the [AttributeError]
    of the lookup on [None] leaves [hooks_handler].  The indicator is
    unchanged and the last line logged is the one that follows the
    request; neither outcome line of the handler is logged. *)
Theorem missing_results_raise_through_handler conf svc hook_name s :
  hook_name ∈ delegating_hook_names ->
  contains "ip-" (type_name (ioc_type (h_data s))) ->
  results (ip_report_of conf svc s) = None ->
  exists s',
    hooks_handler conf svc hook_name s
    = (Raised (AttributeError "'NoneType' object has no attribute 'get'"), s')
    /\ h_data s' = h_data s
    /\ w_log (h_world s')
       = (w_log (h_world s)
          ++ [ (INFO, "Received " +:+ hook_name);
               (INFO, "Getting IP report for " +:+ ioc_value (h_data s));
               (INFO, "VT report fetched.") ])%list.
Proof.
  intros Hin Hip%py_in_contains Hr.
  rewrite delegating_hook_run by done.
  rewrite handle_ioc_ip by done.
  rewrite ip_no_results_run by done.
  eexists. split; [reflexivity |]. split; [reflexivity |].
  cbn [h_world w_log snd h_data]. rewrite received_state.
  cbn [h_world w_log h_data]. by rewrite <- !(assoc_L (++)).
Qed.

Lemma missing_results_raise_through_handler_witness :
  exists s',
    hooks_handler sample_conf answering_nothing "on_manual_trigger_ioc"
      (sample_state "ip-dst" "203.0.113.7")
    = (Raised (AttributeError "'NoneType' object has no attribute 'get'"), s')
    /\ h_data s' = h_data (sample_state "ip-dst" "203.0.113.7")
    /\ w_log (h_world s')
       = [ (INFO, "Received on_manual_trigger_ioc");
           (INFO, "Getting IP report for 203.0.113.7");
           (INFO, "VT report fetched.") ].
Proof.
  apply (missing_results_raise_through_handler sample_conf answering_nothing
           "on_manual_trigger_ioc" (sample_state "ip-dst" "203.0.113.7")).
  - apply (bool_decide_unpack _). vm_compute. reflexivity.
  - apply py_in_contains. reflexivity.
  - reflexivity.
Defined.

(** ** What a hook may change *)

(** X7: whatever the client answers, and also when the run ends in an
    exception, a hook other than [on_preload_ioc_update] keeps the type
    and the value of the indicator, and changes its tags and its
    description by appending only. *)
Theorem hooks_only_append hook_name conf svc s :
  hook_name <> "on_preload_ioc_update" ->
  ioc_type (h_data (snd (hooks_handler conf svc hook_name s)))
  = ioc_type (h_data s)
  /\ ioc_value (h_data (snd (hooks_handler conf svc hook_name s)))
     = ioc_value (h_data s)
  /\ (exists added,
        ioc_tags (h_data (snd (hooks_handler conf svc hook_name s)))
        = ioc_tags (h_data s) +:+ added)
  /\ (exists added,
        ioc_description (h_data (snd (hooks_handler conf svc hook_name s)))
        = ioc_description (h_data s) +:+ added).
Proof.
  intros Hpre.
  destruct (hook_name_cases hook_name) as [Hin | [-> | Hun]]; [| done |].
  - destruct (delegating_hook_final conf svc hook_name s Hin) as (-> & _).
    destruct (handle_ioc_effect conf svc
                (snd (log_info ("Received " +:+ hook_name) s)))
      as (Ht & Hv & Htags & Hdesc & _).
    done.
  - rewrite unsupported_hook_run by done. cbn [snd h_data].
    repeat split; exists EmptyString; by rewrite string_app_nil_r.
Qed.

Lemma hooks_only_append_witness :
  ioc_type (h_data (snd (hooks_handler sample_conf (answering results_with_asn)
                           "on_postload_ioc_create"
                           (sample_state "ip-dst" "203.0.113.7"))))
  = {| type_name := "ip-dst" |}
  /\ ioc_value (h_data (snd (hooks_handler sample_conf
                               (answering results_with_asn)
                               "on_postload_ioc_create"
                               (sample_state "ip-dst" "203.0.113.7"))))
     = "203.0.113.7".
Proof.
  destruct (hooks_only_append "on_postload_ioc_create" sample_conf
              (answering results_with_asn)
              (sample_state "ip-dst" "203.0.113.7")) as (Ht & Hv & _);
    [discriminate |].
  split; assumption.
Defined.

(** X8: each routine writes one field only.  The IP routine never
    changes the description and the domain routine never changes the
    tags; neither changes the type or the value. *)
Theorem routines_write_their_own_field conf svc s :
  (ioc_type (h_data (snd (_handle_vt_ip conf svc s))) = ioc_type (h_data s)
   /\ ioc_value (h_data (snd (_handle_vt_ip conf svc s)))
      = ioc_value (h_data s)
   /\ ioc_description (h_data (snd (_handle_vt_ip conf svc s)))
      = ioc_description (h_data s))
  /\ (ioc_type (h_data (snd (_handle_vt_domain conf svc s)))
      = ioc_type (h_data s)
      /\ ioc_value (h_data (snd (_handle_vt_domain conf svc s)))
         = ioc_value (h_data s)
      /\ ioc_tags (h_data (snd (_handle_vt_domain conf svc s)))
         = ioc_tags (h_data s)).
Proof.
  destruct (ip_run_effect conf svc s) as (?&?&?&_).
  destruct (domain_run_effect conf svc s) as (?&?&?&_).
  done.
Qed.

(** ** The shape of the report *)

(** X9: an integer ASN is written to the tags in decimal. *)
Theorem ip_integer_asn_in_decimal conf svc s r (n : Z) :
  results (ip_report_of conf svc s) = Some r ->
  py_eqb (dict_get r "response_code") (PyInt 0) = false ->
  r !! "asn" = Some (PyInt n) ->
  conf !! "vt_ip_assign_asn_as_tag" = Some (PyBool true) ->
  ioc_tags (h_data (snd (_handle_vt_ip conf svc s)))
  = ioc_tags (h_data s) +:+ ",ASN:" +:+ pretty n.
Proof.
  intros Hr Hz Ha Hc%conf_flag_is_True.
  destruct (ip_tagged conf svc s r Hr Hz Hc) as (w & -> & _).
  unfold dict_get. by rewrite Ha.
Qed.

Lemma ip_integer_asn_in_decimal_witness :
  ioc_tags (h_data (snd (_handle_vt_ip sample_conf (answering results_int_asn)
                           (sample_state "ip-dst" "8.8.8.8"))))
  = "c2,apt,ASN:15169".
Proof.
  apply (ip_integer_asn_in_decimal sample_conf (answering results_int_asn)
           (sample_state "ip-dst" "8.8.8.8") results_int_asn 15169);
    reflexivity.
Defined.

(** X10: only a response code equal to 0 stops the enrichment.  A
    report whose [results] have no [response_code] at all is enriched
    like one with data: the tag is appended. *)
Theorem ip_missing_response_code_is_enriched conf svc s r :
  results (ip_report_of conf svc s) = Some r ->
  r !! "response_code" = None ->
  conf !! "vt_ip_assign_asn_as_tag" = Some (PyBool true) ->
  ioc_tags (h_data (snd (_handle_vt_ip conf svc s)))
  = ioc_tags (h_data s) +:+ ",ASN:" +:+ py_str (dict_get r "asn").
Proof.
  intros Hr Hz Hc%conf_flag_is_True.
  assert (Hz' : py_eqb (dict_get r "response_code") (PyInt 0) = false)
    by (unfold dict_get; by rewrite Hz).
  by destruct (ip_tagged conf svc s r Hr Hz' Hc) as (w & -> & _).
Qed.

Lemma ip_missing_response_code_is_enriched_witness :
  ioc_tags (h_data (snd (_handle_vt_ip sample_conf (answering results_asn_only)
                           (sample_state "ip-dst" "203.0.113.7"))))
  = "c2,apt,ASN:AS1234".
Proof.
  apply (ip_missing_response_code_is_enriched sample_conf
           (answering results_asn_only)
           (sample_state "ip-dst" "203.0.113.7") results_asn_only);
    reflexivity.
Defined.

(** X11: on a response code equal to 0 each routine ends on one line
    logged at error level, which quotes the report's [verbose_msg]; a
    report without that key is quoted as [None]. *)
Theorem zero_response_code_logs_verbose_msg conf svc s :
  (forall r,
     results (ip_report_of conf svc s) = Some r ->
     py_eqb (dict_get r "response_code") (PyInt 0) = true ->
     last (w_log (h_world (snd (_handle_vt_ip conf svc s))))
     = Some (ERROR, "Got invalid feedback from VT :: "
                    +:+ py_str (dict_get r "verbose_msg")))
  /\ (forall r,
        results (domain_report_of conf svc s) = Some r ->
        py_eqb (dict_get r "response_code") (PyInt 0) = true ->
        last (w_log (h_world (snd (_handle_vt_domain conf svc s))))
        = Some (ERROR, "Got invalid feedback from VT :: "
                       +:+ py_str (dict_get r "verbose_msg"))).
Proof.
  split; intros r Hr Hz.
  - unfold ip_report_of in Hr. unfold _handle_vt_ip. run_hook.
    rewrite Hr, Hz. cbn [snd h_world w_log]. apply last_snoc.
  - unfold domain_report_of in Hr. unfold _handle_vt_domain. run_hook.
    rewrite Hr, Hz. cbn [snd h_world w_log]. apply last_snoc.
Qed.

Lemma zero_response_code_logs_verbose_msg_witness :
  last (w_log (h_world (snd (_handle_vt_ip sample_conf
                               (answering results_no_data_no_msg)
                               (sample_state "ip-dst" "203.0.113.7")))))
  = Some (ERROR, "Got invalid feedback from VT :: None")
  /\ last (w_log (h_world (snd (_handle_vt_domain sample_conf
                                  (answering results_no_data)
                                  (sample_state "domain" "example.org")))))
     = Some (ERROR, "Got invalid feedback from VT :: Missing IP address").
Proof.
  split.
  - apply (proj1 (zero_response_code_logs_verbose_msg sample_conf
                    (answering results_no_data_no_msg)
                    (sample_state "ip-dst" "203.0.113.7"))
             results_no_data_no_msg); reflexivity.
  - apply (proj2 (zero_response_code_logs_verbose_msg sample_conf
                    (answering results_no_data)
                    (sample_state "domain" "example.org"))
             results_no_data); reflexivity.
Defined.

(** X12: the whois section is appended on every run.  With the option
    enabled and a report of non-zero response code, a second run of the
    domain routine appends the section a second time. *)
Theorem domain_whois_not_idempotent conf svc s r :
  results (domain_report_of conf svc s) = Some r ->
  py_eqb (dict_get r "response_code") (PyInt 0) = false ->
  conf !! "vt_domain_add_whois_as_desc" = Some (PyBool true) ->
  exists s1 s2,
    snd (_handle_vt_domain conf svc s) = s1
    /\ snd (_handle_vt_domain conf svc s1) = s2
    /\ ioc_description (h_data s1)
       = ioc_description (h_data s) +:+ whois_heading
         +:+ py_str (dict_get r "whois")
    /\ ioc_description (h_data s2)
       = (ioc_description (h_data s) +:+ whois_heading
          +:+ py_str (dict_get r "whois"))
         +:+ whois_heading +:+ py_str (dict_get r "whois")
    /\ ioc_description (h_data s2) <> ioc_description (h_data s1).
Proof.
  intros Hr Hz Hc%conf_flag_is_True.
  destruct (domain_described conf svc s r Hr Hz Hc) as (w1 & Hrun1).
  set (s1 := snd (_handle_vt_domain conf svc s)).
  assert (Hs1 : h_data s1 = set_ioc_description
            (ioc_description (h_data s) +:+ whois_heading
             +:+ py_str (dict_get r "whois")) (h_data s))
    by (unfold s1; by rewrite Hrun1).
  assert (Hr1 : results (domain_report_of conf svc s1) = Some r)
    by (unfold domain_report_of; by rewrite Hs1).
  destruct (domain_described conf svc s1 r Hr1 Hz Hc) as (w2 & Hrun2).
  exists s1, (snd (_handle_vt_domain conf svc s1)).
  rewrite Hrun2, Hs1. cbn [snd h_data ioc_description set_ioc_description].
  repeat split; try done.
  by apply string_app_grows.
Qed.

Lemma domain_whois_not_idempotent_witness :
  exists s1 s2,
    snd (_handle_vt_domain sample_conf (answering results_with_whois)
           (sample_state "domain" "example.org")) = s1
    /\ snd (_handle_vt_domain sample_conf (answering results_with_whois) s1) = s2
    /\ ioc_description (h_data s2)
       = "seen in proxy logs"
         +:+ LF +:+ LF +:+ "WHOIS" +:+ LF +:+ " registrar: example"
         +:+ LF +:+ LF +:+ "WHOIS" +:+ LF +:+ " registrar: example".
Proof.
  destruct (domain_whois_not_idempotent sample_conf
              (answering results_with_whois)
              (sample_state "domain" "example.org") results_with_whois)
    as (s1 & s2 & H1 & H2 & _ & H3 & _);
    [reflexivity | reflexivity | reflexivity |].
  exists s1, s2. repeat split; assumption.
Defined.

(** ** The envelope *)

(** X13: whenever [hooks_handler] returns, for any hook name, the
    envelope carries the data object in its final state and the whole
    message queue; the queue is the one found at entry, followed by the
    [Received] line and whatever was logged after it. *)
Theorem envelope_echoes_data_and_queue conf svc hook_name s env s' :
  hooks_handler conf svc hook_name s = (Ok env, s') ->
  data env = Some (h_data s')
  /\ logs env = w_log (h_world s')
  /\ exists lines,
       w_log (h_world s')
       = (w_log (h_world s) ++ (INFO, "Received " +:+ hook_name) :: lines)%list.
Proof.
  intros H.
  destruct (hook_name_cases hook_name) as [Hin | [-> | Hun]].
  - rewrite delegating_hook_run in H by done.
    destruct (handle_ioc_effect conf svc
                (snd (log_info ("Received " +:+ hook_name) s)))
      as (_ & _ & _ & _ & _ & _ & lines & Hlog).
    destruct (_handle_ioc conf svc _) as [[st|e] s1]; [| discriminate H].
    rewrite conclude_run in H. injection H as <- <-.
    cbn [snd] in Hlog. cbn [data logs with_data_logs h_data h_world w_log].
    repeat split. rewrite Hlog, received_state. cbn [h_world w_log].
    rewrite <- !(assoc_L (++)). eexists. reflexivity.
  - rewrite preload_hook_run, conclude_run in H. injection H as <- <-.
    cbn [data logs with_data_logs h_data h_world w_log].
    repeat split. rewrite <- !(assoc_L (++)). eexists. reflexivity.
  - rewrite unsupported_hook_run in H by done. injection H as <- <-.
    cbn [data logs with_data_logs h_data h_world w_log].
    repeat split. eexists. reflexivity.
Qed.

Lemma envelope_echoes_data_and_queue_witness :
  exists env,
    fst (hooks_handler sample_conf (answering results_with_asn)
           "on_postload_ioc_create" (sample_state "ip-dst" "203.0.113.7"))
    = Ok env
    /\ data env
       = Some {| ioc_type := {| type_name := "ip-dst" |};
                 ioc_value := "203.0.113.7";
                 ioc_description := "seen in proxy logs";
                 ioc_tags := "c2,apt,ASN:AS1234" |}
    /\ logs env
       = [ (INFO, "Received on_postload_ioc_create");
           (INFO, "Getting IP report for 203.0.113.7");
           (INFO, "VT report fetched.");
           (INFO, "Assigning new ASN tag to IOC.");
           (INFO, "Successfully processed hook on_postload_ioc_create") ].
Proof.
  destruct (hooks_handler sample_conf (answering results_with_asn)
              "on_postload_ioc_create" (sample_state "ip-dst" "203.0.113.7"))
    as [[env|e] s'] eqn:Hrun; [| discriminate Hrun].
  destruct (envelope_echoes_data_and_queue _ _ _ _ _ _ Hrun)
    as (Hd & Hl & _).
  exists env. split; [reflexivity |].
  rewrite Hd, Hl.
  injection Hrun as _ <-. split; reflexivity.
Defined.

(** ** Registration, first attempt rejected *)

(** X14: when the host rejects the first registration, the three other
    hooks are registered all the same, and the message and the data of
    that first status are logged at error level after each of the four
    attempts, whatever the host answered to the later ones; no success
    line is logged. *)
Theorem register_hooks_first_rejection_repeated host module_id w :
  is_failure (host (plain_call module_id "on_postload_ioc_create")) = true ->
  register_hooks host module_id w
  = (Ok tt,
     {| w_log := (w_log w ++
          let status := host (plain_call module_id "on_postload_ioc_create") in
          [ (ERROR, py_str (get_message status));
            (ERROR, py_str (get_data status));
            (ERROR, py_str (get_message status));
            (ERROR, py_str (get_data status));
            (ERROR, py_str (get_message status));
            (ERROR, py_str (get_data status));
            (ERROR, py_str (get_message status));
            (ERROR, py_str (get_data status)) ])%list;
        w_vt := w_vt w;
        w_reg := (w_reg w ++ registered_calls module_id)%list |}).
Proof.
  intros H. rewrite register_hooks_run, H. reflexivity.
Qed.

Lemma register_hooks_first_rejection_repeated_witness :
  is_failure (host_rejecting_first (plain_call 7 "on_preload_ioc_update")) = false
  /\ register_hooks host_rejecting_first 7 empty_world
     = (Ok tt,
        {| w_log :=
             [ (ERROR, "hook not available"); (ERROR, "404");
               (ERROR, "hook not available"); (ERROR, "404");
               (ERROR, "hook not available"); (ERROR, "404");
               (ERROR, "hook not available"); (ERROR, "404") ];
           w_vt := [];
           w_reg := registered_calls 7 |}).
Proof.
  split; [reflexivity |].
  apply (register_hooks_first_rejection_repeated host_rejecting_first 7
           empty_world).
  reflexivity.
Defined.

(** ** Hooks and worlds *)

Lemma ip_data_ignores_world conf svc d w1 w2 :
  h_data (snd (_handle_vt_ip conf svc {| h_data := d; h_world := w1 |}))
  = h_data (snd (_handle_vt_ip conf svc {| h_data := d; h_world := w2 |})).
Proof.
  destruct (results (ip_report_of conf svc {| h_data := d; h_world := w1 |}))
    as [r|] eqn:Hr.
  - destruct (py_eqb (dict_get r "response_code") (PyInt 0)) eqn:Hz.
    { destruct (ip_zero conf svc _ r Hr Hz) as (? & -> & _).
      by destruct (ip_zero conf svc {| h_data := d; h_world := w2 |} r Hr Hz)
        as (? & -> & _). }
    destruct (py_is_True (dict_get conf "vt_ip_assign_asn_as_tag")) eqn:Hc.
    + destruct (ip_tagged conf svc _ r Hr Hz Hc) as (? & -> & _).
      by destruct (ip_tagged conf svc {| h_data := d; h_world := w2 |} r Hr Hz Hc)
        as (? & -> & _).
    + by rewrite !ip_keeps_data_when_off.
  - destruct (ip_no_results conf svc _ Hr) as (? & ? & ->).
    by destruct (ip_no_results conf svc {| h_data := d; h_world := w2 |} Hr)
      as (? & ? & ->).
Qed.

Lemma domain_data_ignores_world conf svc d w1 w2 :
  h_data (snd (_handle_vt_domain conf svc {| h_data := d; h_world := w1 |}))
  = h_data (snd (_handle_vt_domain conf svc {| h_data := d; h_world := w2 |})).
Proof.
  destruct (results (domain_report_of conf svc {| h_data := d; h_world := w1 |}))
    as [r|] eqn:Hr.
  - destruct (py_eqb (dict_get r "response_code") (PyInt 0)) eqn:Hz.
    { destruct (domain_zero conf svc _ r Hr Hz) as (? & ->).
      by destruct (domain_zero conf svc {| h_data := d; h_world := w2 |} r Hr Hz)
        as (? & ->). }
    destruct (py_is_True (dict_get conf "vt_domain_add_whois_as_desc")) eqn:Hc.
    + destruct (domain_described conf svc _ r Hr Hz Hc) as (? & ->).
      by destruct (domain_described conf svc
                     {| h_data := d; h_world := w2 |} r Hr Hz Hc) as (? & ->).
    + by rewrite !domain_keeps_data_when_off.
  - destruct (domain_no_results conf svc _ Hr) as (? & ? & ->).
    by destruct (domain_no_results conf svc {| h_data := d; h_world := w2 |} Hr)
      as (? & ? & ->).
Qed.

Lemma handle_ioc_data_ignores_world conf svc d w1 w2 :
  h_data (snd (_handle_ioc conf svc {| h_data := d; h_world := w1 |}))
  = h_data (snd (_handle_ioc conf svc {| h_data := d; h_world := w2 |})).
Proof.
  destruct (handle_ioc_cases conf svc {| h_data := d; h_world := w1 |})
    as [(H1 & ->) | [(H1 & H2 & ->) | (H1 & H2 & ->)]].
  - rewrite (handle_ioc_ip conf svc {| h_data := d; h_world := w2 |}) by done.
    apply ip_data_ignores_world.
  - rewrite (handle_ioc_domain conf svc {| h_data := d; h_world := w2 |})
      by done.
    apply domain_data_ignores_world.
  - by rewrite (handle_ioc_skip conf svc {| h_data := d; h_world := w2 |}).
Qed.

(** X15: the three delegating hooks enrich alike, and nothing carries
    over from earlier calls: the indicator after the call depends on
    the configuration, the client and the indicator before the call,
    not on which of the three hooks fired nor on what was logged,
    requested or registered before. *)
Theorem delegating_hooks_enrich_alike conf svc hook1 hook2 d w1 w2 :
  hook1 ∈ delegating_hook_names ->
  hook2 ∈ delegating_hook_names ->
  h_data (snd (hooks_handler conf svc hook1 {| h_data := d; h_world := w1 |}))
  = h_data (snd (hooks_handler conf svc hook2 {| h_data := d; h_world := w2 |})).
Proof.
  intros H1 H2.
  destruct (delegating_hook_final conf svc hook1
              {| h_data := d; h_world := w1 |} H1) as (-> & _).
  destruct (delegating_hook_final conf svc hook2
              {| h_data := d; h_world := w2 |} H2) as (-> & _).
  rewrite !received_state. apply handle_ioc_data_ignores_world.
Qed.

Lemma delegating_hooks_enrich_alike_witness :
  h_data (snd (hooks_handler sample_conf (answering results_with_asn)
                 "on_postload_ioc_create"
                 (sample_state "ip-dst" "203.0.113.7")))
  = h_data (snd (hooks_handler sample_conf (answering results_with_asn)
                   "on_manual_trigger_ioc"
                   {| h_data := h_data (sample_state "ip-dst" "203.0.113.7");
                      h_world := {| w_log := [(INFO, "earlier line")];
                                    w_vt := [];
                                    w_reg := registered_calls 7 |} |})).
Proof.
  apply (delegating_hooks_enrich_alike sample_conf
           (answering results_with_asn)
           "on_postload_ioc_create" "on_manual_trigger_ioc").
  - apply (bool_decide_unpack _). vm_compute. reflexivity.
  - apply (bool_decide_unpack _). vm_compute. reflexivity.
Defined.



(** ** Missing keys *)



(** ** Separate effects *)

(** X18: handling a hook never registers anything, whatever the hook
    name and the outcome, and registering the hooks never sends a
    request to the client. *)
Theorem handling_and_registering_are_separate conf svc host hook_name
    module_id s w :
  w_reg (h_world (snd (hooks_handler conf svc hook_name s)))
  = w_reg (h_world s)
  /\ w_vt (snd (register_hooks host module_id w)) = w_vt w.
Proof.
  split; [| by rewrite register_hooks_run].
  destruct (hook_name_cases hook_name) as [Hin | [-> | Hun]].
  - destruct (delegating_hook_final conf svc hook_name s Hin) as (_ & _ & ->).
    by destruct (handle_ioc_effect conf svc
                   (snd (log_info ("Received " +:+ hook_name) s)))
      as (_ & _ & _ & _ & _ & -> & _).
  - by rewrite preload_hook_run, conclude_run.
  - by rewrite unsupported_hook_run.
Qed.
